(** * road_building_extraction: the training driver [src/train.py]

    A shallow embedding of [main], [train], [validation] and
    [save_checkpoint], and the properties of the checkpoint / resume
    mechanism, the per-batch protocol of the two passes, the learning-rate
    schedule and the logging cadence.

    Conventions of the embedding.
    - Python [int]s are [Z]; [//] is [Z.div] and [%] is [Z.modulo] (both
      round towards minus infinity, as Python does), with the
      [ZeroDivisionError] of a zero divisor written out.
    - Python [float]s (losses, accuracies, learning rates, logging steps)
      are rationals [Q]: the claims only compare, average and scale them.
    - The numeric framework (tensors, the network, autograd, SGD) and the
      helper modules of the repository that the driver only calls are an
      interface, [Framework]; every theorem holds for all its instances.
    - Mutable objects (model, optimizer, scheduler, loggers, the file
      system, standard output) live in one [World] that is threaded through
      a state-and-exception monad; a raised exception keeps the state
      reached so far, as in Python.
    - [calls] is the sequence of calls made into the framework, in program
      order.  It is ghost state: no code reads it.
    - Left out: wall-clock time (the two "elapsed" lines carry no value),
      the placement on an accelerator and the [Variable] wrappers (identity
      on values), the progress bar, and NaN among the floats.  A path names
      a file by its spelling. *)

From Stdlib Require Import ZArith QArith Ascii String List Lia.
From stdpp Require Import base option list strings pretty gmap.

Local Open Scope string_scope.
Local Open Scope list_scope.
Local Open Scope Z_scope.

(** ** Exceptions and the monad *)

Inductive exn : Type :=
| ZeroDivisionError
| NameError
| FileNotFoundError
| UnpicklingError.

Inductive result (A : Type) : Type :=
| Ok (a : A)
| Raise (e : exn).
Arguments Ok {A} a.
Arguments Raise {A} e.

Definition is_ok {A} (r : result A) : bool :=
  match r with Ok _ => true | Raise _ => false end.

(** ** Python numerics *)

(** [a < b] on numbers. *)
Definition py_lt (a b : Q) : bool :=
  match Qlt_le_dec a b with left _ => true | right _ => false end.

(** [min(a, b)]: the first argument unless the second is smaller. *)
Definition py_min (a b : Q) : Q := if py_lt b a then b else a.

(** [a // b] and [a % b] on ints. *)
Definition py_floordiv (a b : Z) : result Z :=
  if Z.eqb b 0 then Raise ZeroDivisionError else Ok (a / b).

Definition py_mod (a b : Z) : result Z :=
  if Z.eqb b 0 then Raise ZeroDivisionError else Ok (a mod b).

(** [a / b], true division of two ints. *)
Definition py_truediv (a b : Z) : result Q :=
  if Z.eqb b 0 then Raise ZeroDivisionError else Ok (inject_Z a / inject_Z b)%Q.

(** [tag.replace('.', '/')]. *)
Fixpoint replace_dot (s : string) : string :=
  match s with
  | EmptyString => EmptyString
  | String c s' =>
      String (if Ascii.eqb c "."%char then "/"%char else c) (replace_dot s')
  end.

(** ** MetricTracker *)

(** Modelled from the spec: [utils/metrics.py] ([MetricTracker]) is not part
    of the sources at hand.  The tracker holds [{sum, count}]; [update(value,
    weight)] adds [value * weight] to the sum and [weight] to the count;
    the average is [sum / count], and zero while the count is zero. *)
Record MetricTracker : Type := { mt_sum : Q; mt_count : Z }.

Definition mt_reset : MetricTracker := {| mt_sum := 0; mt_count := 0 |}.

Definition mt_update (val : Q) (n : Z) (t : MetricTracker) : MetricTracker :=
  {| mt_sum := (mt_sum t + val * inject_Z n)%Q; mt_count := mt_count t + n |}.

Definition mt_avg (t : MetricTracker) : Q :=
  if Z.eqb (mt_count t) 0 then 0%Q else (mt_sum t / inject_Z (mt_count t))%Q.

(** The tracker after a sequence of [(value, weight)] updates. *)
Definition mt_updates_from (t : MetricTracker) (l : list (Q * Z)) : MetricTracker :=
  fold_left (fun t vn => mt_update (fst vn) (snd vn) t) l t.

Definition mt_updates (l : list (Q * Z)) : MetricTracker := mt_updates_from mt_reset l.

(** ** The framework interface *)

(** One element of a loader: [data['sat_img']] and [data['map_img']]. *)
Record Batch (Tensor : Type) : Type := { sat_img : Tensor; map_img : Tensor }.
Arguments sat_img {Tensor} b.
Arguments map_img {Tensor} b.

(** A [DataLoader]: [len(loader)] and, for the [k]-th pass made over it, the
    batch it yields at each index (a shuffling loader yields different
    batches on different passes). *)
Record DataLoader (Tensor : Type) : Type :=
  { dl_len : nat; dl_batch : nat -> nat -> Batch Tensor }.
Arguments dl_len {Tensor} d.
Arguments dl_batch {Tensor} d pass idx.

(** What [train.py] imports and only calls: torch, [models.unet],
    [utils.metrics], [utils.data_utils].  The operations are functions of
    the values they are given; nothing else is assumed of them. *)
Class Framework : Type := {
  Tensor : Type;
  StateDict : Type;      (* model.state_dict(): weights and buffers *)
  Grads : Type;          (* the .grad of every parameter *)
  Momenta : Type;        (* the per-parameter state of SGD *)
  Loss : Type;           (* the Variable returned by the criterion *)
  Image : Type;
  (* models.unet *)
  UNet : StateDict;
  no_grads : Grads;
  forward : StateDict -> bool -> Tensor -> StateDict * Tensor;
  named_parameters : StateDict -> Grads -> list (string * (Tensor * Tensor));
  (* torch *)
  gt : Tensor -> Q -> Tensor;
  to_float : Tensor -> Tensor;
  to_double : Tensor -> Tensor;
  size0 : Tensor -> Z;
  backward : Loss -> Grads -> Grads;
  zero_grad : Grads -> Grads;
  no_momenta : Momenta;
  sgd_step : Q -> Q -> bool -> Momenta -> StateDict -> Grads -> Momenta * StateDict;
  (* utils.metrics *)
  criterion : Tensor -> Tensor -> Loss;
  loss_item : Loss -> Q;
  dice_coeff : Tensor -> Tensor -> Q;
  (* utils.data_utils and the loaders built on it *)
  show_map_batch : Tensor -> Tensor -> Image;
  train_dataloader : string -> string -> Z -> DataLoader Tensor;
  val_dataloader : string -> string -> DataLoader Tensor;
}.

(** ** Program state

    [main] builds the model, the optimizer and the schedule on entry
    (lines 36-48); the fields [model], [optimizer] and [lr_scheduler] hold
    them from then on, and what they hold before is never read.  [passes]
    counts the passes made over the loaders, to index what they yield. *)

Section Driver.
Context `{FW : Framework}.

Record Model : Type :=
  { state_dict : StateDict; training : bool; grads : Grads }.

(** The optimizer is its [state_dict()]: the parameter group (learning
    rate, momentum, nesterov) and the per-parameter state. *)
Record Optimizer : Type :=
  { lr : Q; momentum : Q; nesterov : bool; momenta : Momenta }.

Record StepLR : Type :=
  { base_lr : Q; step_size : Z; gamma : Q; last_epoch : Z }.

Record Logger : Type := { log_dir : string; print_freq : Z }.

(** The dictionary handed to [save_checkpoint]. *)
Record Checkpoint : Type := {
  ck_epoch : Z;
  ck_arch : string;
  ck_state_dict : StateDict;
  ck_best_loss : Q;
  ck_optimizer : Optimizer;
}.

Inductive file : Type :=
| FCheckpoint (c : Checkpoint)
| FOther.

Inductive summary : Type :=
| Scalar (tag : string) (value step : Q)
| Histo (tag : string) (values : Tensor) (step : Q)
| Images (tag : string) (images : list Image) (step : Q).

Inductive out_line : Type :=
| Out_loading (path : string)
| Out_loaded (path : string) (epoch : Z)
| Out_no_checkpoint (path : string)
| Out_epoch (epoch last : Z)
| Out_dashes
| Out_training (loss acc : Q)
| Out_validation (loss acc : Q)
| Out_blank
| Out_elapsed
| Out_complete.

(** Calls into the framework. *)
Inductive event : Type :=
| Ev_scheduler_step
| Ev_model_eval
| Ev_zero_grad
| Ev_forward (mode : bool) (inputs prob_map : Tensor)
| Ev_criterion (outputs labels : Tensor)
| Ev_backward (loss : Loss)
| Ev_optimizer_step
| Ev_load (filename : string)
| Ev_save (filename : string) (c : Checkpoint)
| Ev_copyfile (src dst : string).

Record State : Type := {
  model : Model;
  optimizer : Optimizer;
  lr_scheduler : StepLR;
  fs : gmap string file;
  stdout : list out_line;
  tensorboard : list (string * summary);
  passes : nat;
  calls : list event;
}.

Definition with_model (m : Model) (s : State) : State :=
  {| model := m; optimizer := optimizer s; lr_scheduler := lr_scheduler s;
     fs := fs s; stdout := stdout s; tensorboard := tensorboard s;
     passes := passes s; calls := calls s |}.

Definition with_optimizer (o : Optimizer) (s : State) : State :=
  {| model := model s; optimizer := o; lr_scheduler := lr_scheduler s;
     fs := fs s; stdout := stdout s; tensorboard := tensorboard s;
     passes := passes s; calls := calls s |}.

Definition with_lr_scheduler (l : StepLR) (s : State) : State :=
  {| model := model s; optimizer := optimizer s; lr_scheduler := l;
     fs := fs s; stdout := stdout s; tensorboard := tensorboard s;
     passes := passes s; calls := calls s |}.

Definition with_fs (f : gmap string file) (s : State) : State :=
  {| model := model s; optimizer := optimizer s; lr_scheduler := lr_scheduler s;
     fs := f; stdout := stdout s; tensorboard := tensorboard s;
     passes := passes s; calls := calls s |}.

Definition with_stdout (o : list out_line) (s : State) : State :=
  {| model := model s; optimizer := optimizer s; lr_scheduler := lr_scheduler s;
     fs := fs s; stdout := o; tensorboard := tensorboard s;
     passes := passes s; calls := calls s |}.

Definition with_tensorboard (t : list (string * summary)) (s : State) : State :=
  {| model := model s; optimizer := optimizer s; lr_scheduler := lr_scheduler s;
     fs := fs s; stdout := stdout s; tensorboard := t;
     passes := passes s; calls := calls s |}.

Definition with_passes (n : nat) (s : State) : State :=
  {| model := model s; optimizer := optimizer s; lr_scheduler := lr_scheduler s;
     fs := fs s; stdout := stdout s; tensorboard := tensorboard s;
     passes := n; calls := calls s |}.

Definition with_calls (c : list event) (s : State) : State :=
  {| model := model s; optimizer := optimizer s; lr_scheduler := lr_scheduler s;
     fs := fs s; stdout := stdout s; tensorboard := tensorboard s;
     passes := passes s; calls := c |}.

(** ** The monad *)

Definition M (A : Type) : Type := State -> result A * State.

#[global] Instance M_ret : MRet M := fun A a s => (Ok a, s).

#[global] Instance M_bind : MBind M := fun A B f c s =>
  match c s with
  | (Ok a, s') => f a s'
  | (Raise e, s') => (Raise e, s')
  end.

Definition raise {A} (e : exn) : M A := fun s => (Raise e, s).

Definition lift {A} (r : result A) : M A := fun s => (r, s).

Definition gets {A} (f : State -> A) : M A := fun s => (Ok (f s), s).

Definition modify (f : State -> State) : M unit := fun s => (Ok tt, f s).

Definition call (e : event) : M unit :=
  modify (fun s => with_calls (calls s ++ [e]) s).

Definition print (l : out_line) : M unit :=
  modify (fun s => with_stdout (stdout s ++ [l]) s).

(** [for x in l: body], threading the local variables the body assigns. *)
Fixpoint for_fold {A X} (l : list A) (body : A -> X -> M X) (x : X) : M X :=
  match l with
  | [] => mret x
  | a :: l' => x' ← body a x; for_fold l' body x'
  end.

Definition for_each {A} (l : list A) (body : A -> M unit) : M unit :=
  for_fold l (fun a _ => body a) tt.

(** [enumerate(l)], counting from [i]. *)
Fixpoint enumerate_from {A} (i : Z) (l : list A) : list (Z * A) :=
  match l with
  | [] => []
  | a :: l' => (i, a) :: enumerate_from (i + 1) l'
  end.

(** [range(start, stop)]. *)
Definition range (start stop : Z) : list Z :=
  map (fun i => start + Z.of_nat i) (seq 0 (Z.to_nat (stop - start))).

(** ** Framework objects *)

(** [for ... in enumerate(loader)]: the batches of this pass. *)
Definition iterate (d : DataLoader Tensor) : M (list (Z * Batch Tensor)) :=
  k ← gets passes;
  modify (with_passes (S k)) ;;
  mret (enumerate_from 0 (map (dl_batch d k) (seq 0 (dl_len d)))).

(** [len(loader)]. *)
Definition len (d : DataLoader Tensor) : Z := Z.of_nat (dl_len d).

(** [optim.SGD(model.parameters(), lr=..., momentum=..., nesterov=True)]. *)
Definition SGD (learning_rate mom : Q) (nest : bool) : Optimizer :=
  {| lr := learning_rate; momentum := mom; nesterov := nest; momenta := no_momenta |}.

Definition set_lr (r : Q) (o : Optimizer) : Optimizer :=
  {| lr := r; momentum := momentum o; nesterov := nesterov o; momenta := momenta o |}.

(** Modelled from the spec: torch's [StepLR] is not part of the sources at
    hand.  It is a step decay that multiplies the rate by a fixed factor
    every fixed number of epochs: at epoch [e] of the schedule the rate is
    [base_lr * gamma ** (e // step_size)].  Building the schedule puts it at
    epoch 0 with the optimizer's rate as [base_lr]; every [step()] moves it
    to the next epoch and writes the rate into the optimizer. *)
Definition get_lr (sch : StepLR) : Q :=
  (base_lr sch * gamma sch ^ (last_epoch sch / step_size sch))%Q.

Definition StepLR_set_epoch (e : Z) (sch : StepLR) : StepLR :=
  {| base_lr := base_lr sch; step_size := step_size sch; gamma := gamma sch;
     last_epoch := e |}.

Definition StepLR_new (size : Z) (g : Q) : M unit :=
  modify (fun s =>
    let sch := {| base_lr := lr (optimizer s); step_size := size; gamma := g;
                  last_epoch := 0 |} in
    with_optimizer (set_lr (get_lr sch) (optimizer s)) (with_lr_scheduler sch s)).

Definition scheduler_step : M unit :=
  call Ev_scheduler_step ;;
  modify (fun s =>
    let sch := StepLR_set_epoch (last_epoch (lr_scheduler s) + 1) (lr_scheduler s) in
    with_optimizer (set_lr (get_lr sch) (optimizer s)) (with_lr_scheduler sch s)).

Definition set_state_dict (sd : StateDict) (m : Model) : Model :=
  {| state_dict := sd; training := training m; grads := grads m |}.

Definition set_training (b : bool) (m : Model) : Model :=
  {| state_dict := state_dict m; training := b; grads := grads m |}.

Definition set_grads (g : Grads) (m : Model) : Model :=
  {| state_dict := state_dict m; training := training m; grads := g |}.

(** [model.eval()]. *)
Definition model_eval : M unit :=
  call Ev_model_eval ;;
  modify (fun s => with_model (set_training false (model s)) s).

(** [model(inputs)]. *)
Definition model_call (inputs : Tensor) : M Tensor :=
  m ← gets model;
  let r := forward (state_dict m) (training m) inputs in
  modify (fun s => with_model (set_state_dict (fst r) (model s)) s) ;;
  call (Ev_forward (training m) inputs (snd r)) ;;
  mret (snd r).

(** [criterion(outputs, labels)]. *)
Definition criterion_call (outputs labels : Tensor) : M Loss :=
  call (Ev_criterion outputs labels) ;;
  mret (criterion outputs labels).

(** [loss.backward()]. *)
Definition loss_backward (loss : Loss) : M unit :=
  call (Ev_backward loss) ;;
  modify (fun s => with_model (set_grads (backward loss (grads (model s))) (model s)) s).

(** [optimizer.zero_grad()]. *)
Definition optimizer_zero_grad : M unit :=
  call Ev_zero_grad ;;
  modify (fun s => with_model (set_grads (zero_grad (grads (model s))) (model s)) s).

(** [optimizer.step()]. *)
Definition optimizer_step : M unit :=
  call Ev_optimizer_step ;;
  modify (fun s =>
    let o := optimizer s in
    let r := sgd_step (lr o) (momentum o) (nesterov o) (momenta o)
                      (state_dict (model s)) (grads (model s)) in
    with_optimizer
      {| lr := lr o; momentum := momentum o; nesterov := nesterov o; momenta := fst r |}
      (with_model (set_state_dict (snd r) (model s)) s)).

(** [model.load_state_dict(sd)] and [optimizer.load_state_dict(o)]. *)
Definition model_load_state_dict (sd : StateDict) : M unit :=
  modify (fun s => with_model (set_state_dict sd (model s)) s).

Definition optimizer_load_state_dict (o : Optimizer) : M unit :=
  modify (with_optimizer o).

(** The three methods of [utils.logger.Logger]. *)
Definition log_summary (logger : Logger) (x : summary) : M unit :=
  modify (fun s => with_tensorboard (tensorboard s ++ [(log_dir logger, x)]) s).

Definition scalar_summary (logger : Logger) (tag : string) (value step : Q) : M unit :=
  log_summary logger (Scalar tag value step).

Definition histo_summary (logger : Logger) (tag : string) (values : Tensor) (step : Q) : M unit :=
  log_summary logger (Histo tag values step).

Definition image_summary (logger : Logger) (tag : string) (images : list Image) (step : Q) : M unit :=
  log_summary logger (Images tag images step).

(** [os.path.isfile], [torch.load], [torch.save], [shutil.copyfile]. *)
Definition isfile (path : string) : M bool :=
  gets (fun s => bool_decide (is_Some (fs s !! path))).

Definition torch_load (path : string) : M Checkpoint :=
  call (Ev_load path) ;;
  f ← gets (fun s => fs s !! path);
  match f with
  | Some (FCheckpoint c) => mret c
  | Some FOther => raise UnpicklingError
  | None => raise FileNotFoundError
  end.

Definition torch_save (c : Checkpoint) (filename : string) : M unit :=
  call (Ev_save filename c) ;;
  modify (fun s => with_fs (<[filename := FCheckpoint c]> (fs s)) s).

Definition copyfile (src dst : string) : M unit :=
  call (Ev_copyfile src dst) ;;
  f ← gets (fun s => fs s !! src);
  match f with
  | Some x => modify (fun s => with_fs (<[dst := x]> (fs s)) s)
  | None => raise FileNotFoundError
  end.

(** ** [train.py] *)

(** The dictionaries returned by [train] and [validation]. *)
Record Metrics : Type := { m_loss : Q; m_acc : Q }.

Definition checkpoint_path : string := "../checkpoints/checkpoint.pth.tar".
Definition best_path : string := "../checkpoints/model_best.pth.tar".

(** The threshold of [(prob_map > 0.3)]. *)
Definition threshold : Q := 3 # 10.

(** Lines 166-192: the tensorboard block of [train]. *)
Definition train_log (logger : Logger) (epoch_num idx log_iter : Z)
    (inputs labels outputs : Tensor) (train_acc train_loss : MetricTracker) : M unit :=
  q ← lift (py_truediv idx log_iter);
  let step := (inject_Z (epoch_num * print_freq logger) + q)%Q in
  scalar_summary logger "loss" (mt_avg train_loss) step ;;
  scalar_summary logger "accuracy" (mt_avg train_acc) step ;;
  m ← gets model;
  for_each (named_parameters (state_dict m) (grads m)) (fun p =>
    let tag := replace_dot (fst p) in
    histo_summary logger tag (fst (snd p)) step ;;
    histo_summary logger (tag ++ "/grad")%string (snd (snd p)) step) ;;
  image_summary logger "target_images" [show_map_batch inputs labels] step ;;
  image_summary logger "pred_images" [show_map_batch inputs outputs] step.

(** Lines 137-192: the body of the loop of [train]; the two trackers are
    the local variables it updates. *)
Definition train_batch (logger : Logger) (epoch_num log_iter : Z)
    (item : Z * Batch Tensor) (trackers : MetricTracker * MetricTracker)
    : M (MetricTracker * MetricTracker) :=
  let idx := fst item in
  let inputs := sat_img (snd item) in
  let labels := map_img (snd item) in
  optimizer_zero_grad ;;
  prob_map ← model_call inputs;
  let outputs := to_float (gt prob_map threshold) in
  loss ← criterion_call outputs labels;
  loss_backward loss ;;
  optimizer_step ;;
  let train_acc := mt_update (dice_coeff inputs labels) (size0 inputs) (fst trackers) in
  let train_loss := mt_update (loss_item loss) (size0 inputs) (snd trackers) in
  r ← lift (py_mod idx log_iter);
  (if Z.eqb r 0
   then train_log logger epoch_num idx log_iter inputs labels outputs train_acc train_loss
   else mret tt) ;;
  mret (train_acc, train_loss).

Definition train (train_loader : DataLoader Tensor) (logger : Logger) (epoch_num : Z)
    : M Metrics :=
  let train_acc := mt_reset in
  let train_loss := mt_reset in
  log_iter ← lift (py_floordiv (len train_loader) (print_freq logger));
  scheduler_step ;;
  batches ← iterate train_loader;
  trackers ← for_fold batches (train_batch logger epoch_num log_iter) (train_acc, train_loss);
  print (Out_training (mt_avg (snd trackers)) (mt_avg (fst trackers))) ;;
  print Out_blank ;;
  mret {| m_loss := mt_avg (snd trackers); m_acc := mt_avg (fst trackers) |}.

(** Lines 246-266: the tensorboard block of [validation]. *)
Definition validation_log (logger : Logger) (epoch_num idx log_iter : Z)
    (inputs labels outputs : Tensor) (valid_acc valid_loss : MetricTracker) : M unit :=
  q ← lift (py_truediv idx log_iter);
  let step := (inject_Z (epoch_num * print_freq logger) + q)%Q in
  scalar_summary logger "loss" (mt_avg valid_loss) step ;;
  scalar_summary logger "accuracy" (mt_avg valid_acc) step ;;
  image_summary logger "target_images" [show_map_batch inputs labels] step ;;
  image_summary logger "pred_images" [show_map_batch inputs outputs] step.

(** Lines 224-266: the body of the loop of [validation]. *)
Definition validation_batch (logger : Logger) (epoch_num log_iter : Z)
    (item : Z * Batch Tensor) (trackers : MetricTracker * MetricTracker)
    : M (MetricTracker * MetricTracker) :=
  let idx := fst item in
  let inputs := sat_img (snd item) in
  let labels := map_img (snd item) in
  prob_map ← model_call inputs;
  let outputs := to_double (gt prob_map threshold) in
  loss ← criterion_call outputs labels;
  let valid_acc := mt_update (dice_coeff inputs labels) (size0 inputs) (fst trackers) in
  let valid_loss := mt_update (loss_item loss) (size0 inputs) (snd trackers) in
  r ← lift (py_mod idx log_iter);
  (if Z.eqb r 0
   then validation_log logger epoch_num idx log_iter inputs labels outputs valid_acc valid_loss
   else mret tt) ;;
  mret (valid_acc, valid_loss).

Definition validation (valid_loader : DataLoader Tensor) (logger : Logger) (epoch_num : Z)
    : M Metrics :=
  let valid_acc := mt_reset in
  let valid_loss := mt_reset in
  log_iter ← lift (py_floordiv (len valid_loader) (print_freq logger));
  model_eval ;;
  batches ← iterate valid_loader;
  trackers ← for_fold batches (validation_batch logger epoch_num log_iter) (valid_acc, valid_loss);
  print (Out_validation (mt_avg (snd trackers)) (mt_avg (fst trackers))) ;;
  print Out_blank ;;
  mret {| m_loss := mt_avg (snd trackers); m_acc := mt_avg (fst trackers) |}.

Definition save_checkpoint (state : Checkpoint) (is_best : bool) (filename : string)
    : M unit :=
  torch_save state filename ;;
  if is_best then copyfile filename best_path else mret tt.

(** The command line, as [argparse] returns it. *)
Record Args : Type := {
  a_data : string;
  a_epochs : Z;
  a_batch_size : Z;
  a_lr : Q;
  a_momentum : Q;
  a_print_freq : Z;
  a_run : Z;
  a_resume : string;
  a_data_set : string;
}.

(** Lines 50-66 of [main]: the starting parameters and the optional resume.
    [args] is the module-level name [args], which only the script block
    binds; line 66 reads it. Returns [(best_loss, start_epoch)]. *)
Definition main_resume (args : option Args) (resume : string) : M (Q * Z) :=
  let best_loss := 999%Q in
  let start_epoch := 0 in
  if bool_decide (resume = "") then mret (best_loss, start_epoch)
  else
    found ← isfile resume;
    if (found : bool) then
      print (Out_loading resume) ;;
      checkpoint ← torch_load resume;
      let start_epoch := ck_epoch checkpoint in
      let best_loss := ck_best_loss checkpoint in
      model_load_state_dict (ck_state_dict checkpoint) ;;
      optimizer_load_state_dict (ck_optimizer checkpoint) ;;
      print (Out_loaded resume (ck_epoch checkpoint)) ;;
      mret (best_loss, start_epoch)
    else
      match args with
      | Some a => print (Out_no_checkpoint (a_resume a)) ;; mret (best_loss, start_epoch)
      | None => raise NameError
      end.

(** Lines 90-108 of [main]: the body of the epoch loop; [best_loss] is the
    local variable it updates.  [valid_metrics] is returned next to it so
    that a run can be described epoch by epoch. *)
Definition main_epoch (train_loader val_loader : DataLoader Tensor)
    (train_logger val_logger : Logger) (num_epochs epoch : Z) (best_loss : Q)
    : M (Q * Metrics) :=
  print (Out_epoch epoch (num_epochs - 1)) ;;
  print Out_dashes ;;
  train_metrics ← train train_loader train_logger epoch;
  valid_metrics ← validation val_loader val_logger epoch;
  let is_best := py_lt (m_loss valid_metrics) best_loss in
  let best_loss := py_min (m_loss valid_metrics) best_loss in
  sd ← gets (fun s => state_dict (model s));
  od ← gets optimizer;
  save_checkpoint {| ck_epoch := epoch; ck_arch := "UNet"; ck_state_dict := sd;
                     ck_best_loss := best_loss; ck_optimizer := od |}
                  is_best checkpoint_path ;;
  print Out_elapsed ;;
  mret (best_loss, valid_metrics).

Definition Logger_new (dir : string) (freq : Z) : Logger :=
  {| log_dir := dir; print_freq := freq |}.

Definition train_log_dir (run : Z) : string :=
  ("../logs/run_" ++ pretty run ++ "/training")%string.
Definition val_log_dir (run : Z) : string :=
  ("../logs/run_" ++ pretty run ++ "/validation")%string.

(** Lines 33-48 of [main]: model, optimizer, schedule. *)
Definition main_init (learning_rate mom : Q) : M unit :=
  modify (with_model {| state_dict := UNet; training := true; grads := no_grads |}) ;;
  modify (with_optimizer (SGD learning_rate mom true)) ;;
  StepLR_new 15 (1 # 10).

(** Lines 89-111 of [main]. *)
Definition main_loop (train_loader val_loader : DataLoader Tensor)
    (train_logger val_logger : Logger) (start_epoch num_epochs : Z) (best_loss : Q)
    : M unit :=
  for_fold (range start_epoch num_epochs)
    (fun epoch best_loss =>
       r ← main_epoch train_loader val_loader train_logger val_logger num_epochs epoch best_loss;
       mret (fst r))
    best_loss ;;
  print Out_complete.

Definition main (args : option Args) (data_path : string) (batch_size num_epochs : Z)
    (learning_rate mom : Q) (print_freq run : Z) (resume data_set : string) : M unit :=
  main_init learning_rate mom ;;
  start ← main_resume args resume;
  let best_loss := fst start in
  let start_epoch := snd start in
  let train_loader := train_dataloader data_path data_set batch_size in
  let val_loader := val_dataloader data_path data_set in
  let train_logger := Logger_new (train_log_dir run) print_freq in
  let val_logger := Logger_new (val_log_dir run) print_freq in
  main_loop train_loader val_loader train_logger val_logger start_epoch num_epochs best_loss.

(** Lines 287-311: the script block binds [args] and calls [main]. *)
Definition script (args : Args) : M unit :=
  main (Some args) (a_data args) (a_batch_size args) (a_epochs args) (a_lr args)
       (a_momentum args) (a_print_freq args) (a_run args) (a_resume args) (a_data_set args).

(** ** Vocabulary of the statements *)

(** The batches a loader yields on its [k]-th pass. *)
Definition pass_batches (d : DataLoader Tensor) (k : nat) : list (Batch Tensor) :=
  map (dl_batch d k) (seq 0 (dl_len d)).

(** The framework calls of one training batch on which the network, in mode
    [mode], returned [prob_map]. *)
Definition train_events (mode : bool) (bp : Batch Tensor * Tensor) : list event :=
  let outputs := to_float (gt (snd bp) threshold) in
  [ Ev_zero_grad;
    Ev_forward mode (sat_img (fst bp)) (snd bp);
    Ev_criterion outputs (map_img (fst bp));
    Ev_backward (criterion outputs (map_img (fst bp)));
    Ev_optimizer_step ].

(** The framework calls of one validation batch. *)
Definition valid_events (mode : bool) (bp : Batch Tensor * Tensor) : list event :=
  let outputs := to_double (gt (snd bp) threshold) in
  [ Ev_forward mode (sat_img (fst bp)) (snd bp);
    Ev_criterion outputs (map_img (fst bp)) ].

(** The [(value, weight)] pairs the two trackers receive for a batch: the
    Dice coefficient of the input and the label, and the scalar loss of the
    thresholded prediction ([cast] is [.float()] or [.double()]). *)
Definition acc_update (b : Batch Tensor) : Q * Z :=
  (dice_coeff (sat_img b) (map_img b), size0 (sat_img b)).

Definition loss_update (cast : Tensor -> Tensor) (bp : Batch Tensor * Tensor) : Q * Z :=
  (loss_item (criterion (cast (gt (snd bp) threshold)) (map_img (fst bp))),
   size0 (sat_img (fst bp))).

(** What the batches of a pass leave alone, whatever the framework does:
    the mode flag, the schedule, the hyper-parameters of the optimizer, the
    files, the standard output and the count of passes. *)
Definition batch_frame (s s' : State) : Prop :=
  training (model s') = training (model s) /\
  lr_scheduler s' = lr_scheduler s /\
  lr (optimizer s') = lr (optimizer s) /\
  momentum (optimizer s') = momentum (optimizer s) /\
  nesterov (optimizer s') = nesterov (optimizer s) /\
  fs s' = fs s /\
  stdout s' = stdout s /\
  passes s' = passes s.

(** What the batches of a validation pass leave alone on top of that: the
    optimizer and the gradients. *)
Definition eval_frame (s s' : State) : Prop :=
  batch_frame s s' /\
  optimizer s' = optimizer s /\
  grads (model s') = grads (model s).

Definition count_event (p : event -> bool) (l : list event) : nat :=
  length (List.filter p l).

Definition is_optimizer_step (e : event) : bool :=
  match e with Ev_optimizer_step => true | _ => false end.

Definition is_zero_grad (e : event) : bool :=
  match e with Ev_zero_grad => true | _ => false end.

Definition is_backward (e : event) : bool :=
  match e with Ev_backward _ => true | _ => false end.

Definition is_scheduler_step (e : event) : bool :=
  match e with Ev_scheduler_step => true | _ => false end.

Definition is_model_eval (e : event) : bool :=
  match e with Ev_model_eval => true | _ => false end.

(** The dictionaries the two passes return when the network returned
    [ps] on [batches]. *)
Definition train_metrics (batches : list (Batch Tensor)) (ps : list Tensor) : Metrics :=
  {| m_loss := mt_avg (mt_updates (map (loss_update to_float) (combine batches ps)));
     m_acc := mt_avg (mt_updates (map acc_update batches)) |}.

Definition valid_metrics (batches : list (Batch Tensor)) (ps : list Tensor) : Metrics :=
  {| m_loss := mt_avg (mt_updates (map (loss_update to_double) (combine batches ps)));
     m_acc := mt_avg (mt_updates (map acc_update batches)) |}.

(** Code that only writes summaries, and cannot raise. *)
Definition tb_only (c : M unit) : Prop :=
  forall s, exists t, c s = (Ok tt, with_tensorboard (tensorboard s ++ t) s).

(** The logging cadence of a pass is usable: [print_freq] is not zero, and
    neither is [len(loader) // print_freq] unless the loader is empty. *)
Definition cadence_ok (d : DataLoader Tensor) (freq : Z) : Prop :=
  freq <> 0 /\ (len d / freq <> 0 \/ dl_len d = 0%nat).

(** The dictionary of lines 99-105, built in state [s]. *)
Definition epoch_record (e : Z) (best : Q) (s : State) : Checkpoint :=
  {| ck_epoch := e; ck_arch := "UNet"; ck_state_dict := state_dict (model s);
     ck_best_loss := best; ck_optimizer := optimizer s |}.

(** What one epoch of [main] does to the state: [pt] and [pv] are the
    outputs of the network on the training and on the validation batches. *)
Definition epoch_post (tl vl : DataLoader Tensor) (n e : Z) (best : Q) (s : State)
    (best' : Q) (vm : Metrics) (s' : State) : Prop :=
  exists pt pv,
    let bt := pass_batches tl (passes s) in
    let bv := pass_batches vl (S (passes s)) in
    let ck := epoch_record e best' s' in
    let improved := py_lt (m_loss vm) best in
    length pt = dl_len tl /\
    length pv = dl_len vl /\
    vm = valid_metrics bv pv /\
    best' = py_min (m_loss vm) best /\
    calls s' =
      calls s
      ++ (Ev_scheduler_step :: flat_map (train_events (training (model s))) (combine bt pt))
      ++ (Ev_model_eval :: flat_map (valid_events false) (combine bv pv))
      ++ Ev_save checkpoint_path ck
         :: (if improved then [Ev_copyfile checkpoint_path best_path] else []) /\
    fs s' =
      (if improved
       then <[best_path := FCheckpoint ck]> (<[checkpoint_path := FCheckpoint ck]> (fs s))
       else <[checkpoint_path := FCheckpoint ck]> (fs s)) /\
    training (model s') = false /\
    lr_scheduler s' = StepLR_set_epoch (last_epoch (lr_scheduler s) + 1) (lr_scheduler s) /\
    lr (optimizer s') = get_lr (lr_scheduler s') /\
    momentum (optimizer s') = momentum (optimizer s) /\
    nesterov (optimizer s') = nesterov (optimizer s) /\
    passes s' = S (S (passes s)) /\
    stdout s' =
      stdout s ++ [Out_epoch e (n - 1); Out_dashes;
                   Out_training (m_loss (train_metrics bt pt)) (m_acc (train_metrics bt pt));
                   Out_blank;
                   Out_validation (m_loss vm) (m_acc vm); Out_blank; Out_elapsed].

(** ** The epochs of a run *)

(** One completed epoch of the loop of [main]: the state and the value of
    [best_loss] before and after it, and the [valid_metrics] it computed. *)
Record EpochRun : Type := {
  er_epoch : Z;
  er_best_before : Q;
  er_before : State;
  er_valid : Metrics;
  er_best : Q;
  er_after : State;
}.

(** The completed epochs of [for epoch in epochs], in order: the body of the
    loop is run from each state to the next, up to the first epoch that
    raises. *)
Fixpoint history (train_loader val_loader : DataLoader Tensor)
    (train_logger val_logger : Logger) (num_epochs : Z)
    (epochs : list Z) (best_loss : Q) (s : State) : list EpochRun :=
  match epochs with
  | [] => []
  | epoch :: epochs' =>
      match main_epoch train_loader val_loader train_logger val_logger
                       num_epochs epoch best_loss s with
      | (Ok r, s') =>
          {| er_epoch := epoch; er_best_before := best_loss; er_before := s;
             er_valid := snd r; er_best := fst r; er_after := s' |}
          :: history train_loader val_loader train_logger val_logger num_epochs
                     epochs' (fst r) s'
      | (Raise _, _) => []
      end
  end.

(** A run made of completed epochs, each started where the last one ended. *)
Inductive chain (tl vl : DataLoader Tensor) (n : Z)
    : Q -> State -> list Z -> list EpochRun -> Prop :=
| chain_nil b s es : chain tl vl n b s es []
| chain_cons b s e es r h :
    er_epoch r = e ->
    er_best_before r = b ->
    er_before r = s ->
    epoch_post tl vl n e b s (er_best r) (er_valid r) (er_after r) ->
    chain tl vl n (er_best r) (er_after r) es h ->
    chain tl vl n b s (e :: es) (r :: h).

(** The state and the best loss after the last completed epoch. *)
Definition final_state (h : list EpochRun) (s : State) : State :=
  match last h with Some r => er_after r | None => s end.

Definition final_best (h : list EpochRun) (b : Q) : Q :=
  match last h with Some r => er_best r | None => b end.

(** Lines 33-66 of [main], and the epochs of a call of [main]. *)
Definition main_setup (args : option Args) (learning_rate mom : Q) (resume : string)
    : M (Q * Z) :=
  main_init learning_rate mom ;; main_resume args resume.

Definition main_history (args : option Args) (data_path : string)
    (batch_size num_epochs : Z) (learning_rate mom : Q) (print_freq run : Z)
    (resume data_set : string) (s : State) : list EpochRun :=
  match main_setup args learning_rate mom resume s with
  | (Ok start, s1) =>
      history (train_dataloader data_path data_set batch_size)
              (val_dataloader data_path data_set)
              (Logger_new (train_log_dir run) print_freq)
              (Logger_new (val_log_dir run) print_freq)
              num_epochs (range (snd start) num_epochs) (fst start) s1
  | (Raise _, _) => []
  end.

Definition script_history (args : Args) (s : State) : list EpochRun :=
  main_history (Some args) (a_data args) (a_batch_size args) (a_epochs args) (a_lr args)
    (a_momentum args) (a_print_freq args) (a_run args) (a_resume args) (a_data_set args) s.

(** The record an epoch hands to [save_checkpoint], the framework calls made
    during the epoch, and whether the epoch copied its checkpoint to the
    "best" location. *)
Definition record_of (r : EpochRun) : Checkpoint :=
  epoch_record (er_epoch r) (er_best r) (er_after r).

Definition epoch_calls (r : EpochRun) : list event :=
  drop (length (calls (er_before r))) (calls (er_after r)).

Definition is_copy_to_best (e : event) : bool :=
  match e with
  | Ev_copyfile src dst => bool_decide (src = checkpoint_path) && bool_decide (dst = best_path)
  | _ => false
  end.

Definition copied_to_best (r : EpochRun) : bool := existsb is_copy_to_best (epoch_calls r).

Definition valid_loss (r : EpochRun) : Q := m_loss (er_valid r).

(** The objects [main] builds on lines 36-48, in state [s]. *)
Definition fresh_schedule (learning_rate : Q) : StepLR :=
  {| base_lr := learning_rate; step_size := 15; gamma := 1 # 10; last_epoch := 0 |}.

Definition fresh_model : Model :=
  {| state_dict := UNet; training := true; grads := no_grads |}.

Definition fresh_optimizer (learning_rate mom : Q) : Optimizer :=
  set_lr (get_lr (fresh_schedule learning_rate)) (SGD learning_rate mom true).

Definition fresh_state (learning_rate mom : Q) (s : State) : State :=
  with_optimizer (fresh_optimizer learning_rate mom)
    (with_lr_scheduler (fresh_schedule learning_rate)
       (with_model fresh_model s)).

(** The number of batches a pass gets through: none when [print_freq] is
    zero (line 131 or 217 raises), one when the cadence is zero (the first
    [idx % log_iter] raises), all of them otherwise. *)
Definition batches_done (d : DataLoader Tensor) (freq : Z) : nat :=
  if Z.eqb freq 0 then 0%nat
  else if Z.eqb (len d / freq) 0 then Nat.min 1 (dl_len d)
  else dl_len d.

(** The copy rule in the words of the specification: an epoch copies its
    checkpoint to the "best" location exactly when its validation loss is
    strictly lower than the validation loss of every earlier epoch. *)
Definition copies_on_improvement_over_prior_epochs (h : list EpochRun) : Prop :=
  forall i r, h !! i = Some r ->
    (copied_to_best r = true <->
     Forall (fun r' => (valid_loss r < valid_loss r')%Q) (take i h)).




End Driver.

(** ** A small framework to run the driver on

    Tensors and losses are numbers, the network's weights are the number of
    optimizer steps taken so far, and the network's output is read from a
    table indexed by that number: with one training batch per epoch, the
    validation loss of epoch [e] is entry [e] of the table.  The loaders
    yield [n_train] and [n_val] batches of one sample. *)
Module Toy.

Definition batch0 : Batch Q := {| sat_img := 0%Q; map_img := 0%Q |}.

Definition framework (table : list Q) (n_train n_val : nat) : Framework := {|
  Tensor := Q;
  StateDict := nat;
  Grads := unit;
  Momenta := unit;
  Loss := Q;
  Image := unit;
  UNet := 0%nat;
  no_grads := tt;
  forward := fun sd _ _ => (sd, nth (sd - 1) table 0%Q);
  named_parameters := fun _ _ => [("down1.conv.weight", (0%Q, 0%Q))];
  gt := fun t _ => t;
  to_float := fun t => t;
  to_double := fun t => t;
  size0 := fun _ => 1;
  backward := fun _ g => g;
  zero_grad := fun g => g;
  no_momenta := tt;
  sgd_step := fun _ _ _ m sd _ => (m, S sd);
  criterion := fun outputs _ => outputs;
  loss_item := fun l => l;
  dice_coeff := fun _ _ => 1%Q;
  show_map_batch := fun _ _ => tt;
  train_dataloader := fun _ _ _ => {| dl_len := n_train; dl_batch := fun _ _ => batch0 |};
  val_dataloader := fun _ _ => {| dl_len := n_val; dl_batch := fun _ _ => batch0 |};
|}.

(** The process starts with an empty output and the given files. *)
Definition start (FW : Framework) (files : gmap string file) : State := {|
  model := {| state_dict := UNet; training := true; grads := no_grads |};
  optimizer := SGD 0 0 true;
  lr_scheduler := {| base_lr := 0; step_size := 1; gamma := 1; last_epoch := 0 |};
  fs := files;
  stdout := [];
  tensorboard := [];
  passes := 0;
  calls := [];
|}.

(** [python train.py data --epochs n --print-freq 1 --resume r], the other
    options at their defaults. *)
Definition cli (n : Z) (r : string) : Args := {|
  a_data := "data";
  a_epochs := n;
  a_batch_size := 64;
  a_lr := 1 # 100;
  a_momentum := 9 # 10;
  a_print_freq := 1;
  a_run := 0;
  a_resume := r;
  a_data_set := "mass_roads";
|}.

End Toy.

(** ** Concrete runs *)

Module Runs.

(** Four epochs whose validation losses are 0.5, 0.3, 0.4 and 0.2. *)
Definition four : Framework := Toy.framework [5 # 10; 3 # 10; 4 # 10; 2 # 10]%Q 1 1.

(** Two epochs whose validation losses are 1000 and 999.5. *)
Definition high : Framework := Toy.framework [1000; 1999 # 2]%Q 1 1.


(** The objects [main] builds for [python train.py data --print-freq 1]. *)
Definition tl (FW : Framework) : DataLoader Tensor := train_dataloader "data" "mass_roads" 64.
Definition vl (FW : Framework) : DataLoader Tensor := val_dataloader "data" "mass_roads".
Definition tlog (FW : Framework) : Logger := Logger_new (train_log_dir 0) 1.
Definition vlog (FW : Framework) : Logger := Logger_new (val_log_dir 0) 1.

Definition fresh (FW : Framework) : State :=
  fresh_state (1 # 100) (9 # 10) (Toy.start FW ∅).

Abbreviation four_history :=
  (history (tl four) (vl four) (tlog four) (vlog four) 4 (range 0 4) 999 (fresh four)).

Abbreviation high_history :=
  (history (tl high) (vl high) (tlog high) (vlog high) 2 (range 0 2) 999 (fresh high)).

(** A file system holding one checkpoint, of epoch 7. *)
Definition saved (FW : Framework) : Checkpoint :=
  {| ck_epoch := 7; ck_arch := "UNet"; ck_state_dict := UNet; ck_best_loss := 1 # 4;
     ck_optimizer := SGD (1 # 1000) (9 # 10) true |}.

Definition saved_files (FW : Framework) : gmap string file :=
  {[ "run1.pth.tar" := FCheckpoint (saved FW) ]}.

End Runs.

(** ** Vocabulary of the further properties *)

Section Coverage.
Context `{FW : Framework}.


(** The characters of a string. *)
Fixpoint chars (s : string) : list ascii :=
  match s with
  | EmptyString => []
  | String c s' => c :: chars s'
  end.

Definition is_histo (x : summary) : bool :=
  match x with Histo _ _ _ => true | _ => false end.

(** Code that writes summaries [D] only: whatever its outcome, it leaves
    the summaries written so far in place and adds summaries that satisfy
    [D]. *)
Definition logs_only {A} (D : string * summary -> Prop) (c : M A) : Prop :=
  forall s, exists t, tensorboard (snd (c s)) = tensorboard s ++ t /\ Forall D t.




End Coverage.


(** ** Further concrete runs *)

Module Cases.




End Cases.

(** * Properties *)

Section Properties.
Context `{FW : Framework}.

(** ** Running monadic code *)

Lemma run_bind {A B} (c : M A) (f : A -> M B) (s : State) :
  (c ≫= f) s =
  match c s with
  | (Ok a, s') => f a s'
  | (Raise e, s') => (Raise e, s')
  end.
Proof. reflexivity. Qed.

Lemma for_fold_cons {A X} (a : A) (l : list A) (body : A -> X -> M X) (x : X) (s : State) :
  for_fold (a :: l) body x s =
  match body a x s with
  | (Ok x', s') => for_fold l body x' s'
  | (Raise e, s') => (Raise e, s')
  end.
Proof. reflexivity. Qed.

Lemma tb_only_ret : tb_only (mret tt).
Proof. intros s. exists []. rewrite app_nil_r. destruct s; reflexivity. Qed.

Lemma tb_only_log logger x : tb_only (log_summary logger x).
Proof. intros s. eexists. reflexivity. Qed.

Lemma tb_only_seq (c d : M unit) : tb_only c -> tb_only d -> tb_only (c ;; d).
Proof.
  intros Hc Hd s. destruct (Hc s) as [t1 E1].
  destruct (Hd (with_tensorboard (tensorboard s ++ t1) s)) as [t2 E2].
  exists (t1 ++ t2). rewrite run_bind, E1, E2. cbn. rewrite app_assoc. reflexivity.
Qed.

Lemma tb_only_for_each {A} (l : list A) (body : A -> M unit) :
  (forall a, tb_only (body a)) -> tb_only (for_each l body).
Proof.
  intros Hb. induction l as [|a l IH].
  - apply tb_only_ret.
  - intros s. destruct (Hb a s) as [t1 E1].
    destruct (IH (with_tensorboard (tensorboard s ++ t1) s)) as [t2 E2].
    exists (t1 ++ t2). unfold for_each in *. rewrite for_fold_cons, E1, E2.
    cbn. rewrite app_assoc. reflexivity.
Qed.

Lemma tb_only_lift {A} (a : A) (f : A -> M unit) :
  tb_only (f a) -> tb_only (lift (Ok a) ≫= f).
Proof. intros H s. exact (H s). Qed.

Lemma tb_only_gets {A} (g : State -> A) (f : A -> M unit) :
  (forall a, tb_only (f a)) -> tb_only (gets g ≫= f).
Proof. intros H s. exact (H (g s) s). Qed.

Ltac tb_only_tac :=
  repeat lazymatch goal with
    | |- tb_only (log_summary _ _) => apply tb_only_log
    | |- tb_only (mret tt) => apply tb_only_ret
    | |- tb_only (gets _ ≫= _) => apply tb_only_gets; intros ?
    | |- tb_only (lift (Ok _) ≫= _) => apply tb_only_lift
    | |- tb_only (for_each _ _) => apply tb_only_for_each; intros ?
    | |- tb_only (_ ≫= _) => apply tb_only_seq
    end.

Lemma train_log_run logger e idx li inputs labels outputs acc loss :
  li <> 0 ->
  tb_only (train_log logger e idx li inputs labels outputs acc loss).
Proof.
  intros Hli. unfold train_log, py_truediv, scalar_summary, histo_summary, image_summary.
  destruct (Z.eqb_spec li 0) as [|_]; [contradiction|]. tb_only_tac.
Qed.

Lemma validation_log_run logger e idx li inputs labels outputs acc loss :
  li <> 0 ->
  tb_only (validation_log logger e idx li inputs labels outputs acc loss).
Proof.
  intros Hli. unfold validation_log, py_truediv, scalar_summary, image_summary.
  destruct (Z.eqb_spec li 0) as [|_]; [contradiction|]. tb_only_tac.
Qed.


(** ** One batch *)

Lemma batch_frame_refl s : batch_frame s s.
Proof. repeat split. Qed.

Lemma batch_frame_trans s1 s2 s3 :
  batch_frame s1 s2 -> batch_frame s2 s3 -> batch_frame s1 s3.
Proof.
  unfold batch_frame. intros (?&?&?&?&?&?&?&?) (?&?&?&?&?&?&?&?).
  repeat split; congruence.
Qed.

Lemma eval_frame_refl s : eval_frame s s.
Proof. repeat split. Qed.

Lemma eval_frame_trans s1 s2 s3 :
  eval_frame s1 s2 -> eval_frame s2 s3 -> eval_frame s1 s3.
Proof.
  intros (F1&?&?) (F2&?&?). split; [eapply batch_frame_trans; eassumption|].
  split; congruence.
Qed.

Ltac mrun :=
  cbv beta iota delta
    [mbind M_bind mret M_ret optimizer_zero_grad model_call criterion_call
     loss_backward optimizer_step model_eval scheduler_step iterate print call
     modify gets lift raise];
  cbn.

Ltac state_simpl :=
  cbn [model optimizer lr_scheduler fs stdout tensorboard passes calls
       with_model with_optimizer with_lr_scheduler with_fs with_stdout
       with_tensorboard with_passes with_calls
       state_dict training grads set_state_dict set_training set_grads
       lr momentum nesterov momenta set_lr].

Ltac state_simpl_all :=
  cbn [model optimizer lr_scheduler fs stdout tensorboard passes calls
       with_model with_optimizer with_lr_scheduler with_fs with_stdout
       with_tensorboard with_passes with_calls
       state_dict training grads set_state_dict set_training set_grads
       lr momentum nesterov momenta set_lr] in *.

Ltac run_log lem :=
  match goal with
  | |- context [train_log ?a ?b ?c ?d ?e ?f ?g ?h ?i ?st] =>
      let t := fresh "t" in let Et := fresh "Et" in
      destruct (lem a b c d e f g h i ltac:(assumption) st) as [t Et]; rewrite Et
  | |- context [validation_log ?a ?b ?c ?d ?e ?f ?g ?h ?i ?st] =>
      let t := fresh "t" in let Et := fresh "Et" in
      destruct (lem a b c d e f g h i ltac:(assumption) st) as [t Et]; rewrite Et
  end.

Lemma train_batch_run logger e li item trs s :
  let b := snd item in
  let p := snd (forward (state_dict (model s)) (training (model s)) (sat_img b)) in
  exists s',
    train_batch logger e li item trs s =
      (if Z.eqb li 0 then Raise ZeroDivisionError
       else Ok (mt_updates_from (fst trs) [acc_update b],
                mt_updates_from (snd trs) [loss_update to_float (b, p)]), s') /\
    calls s' = calls s ++ train_events (training (model s)) (b, p) /\
    batch_frame s s'.
Proof.
  intros b p. unfold train_batch, py_mod.
  destruct (Z.eqb_spec li 0) as [E|E].
  - eexists. split; [cbn; reflexivity|]. split; [|repeat split].
    cbn. rewrite <- !app_assoc. reflexivity.
  - destruct (Z.eqb_spec (item.1 mod li) 0) as [E0|E0].
    + mrun. rewrite (proj2 (Z.eqb_eq _ _) E0). run_log train_log_run.
      eexists. split; [reflexivity|]. split; [|repeat split].
      cbn. rewrite <- !app_assoc. reflexivity.
    + mrun. rewrite (proj2 (Z.eqb_neq _ _) E0).
      eexists. split; [reflexivity|]. split; [|repeat split].
      cbn. rewrite <- !app_assoc. reflexivity.
Qed.

Lemma validation_batch_run logger e li item trs s :
  let b := snd item in
  let r := forward (state_dict (model s)) (training (model s)) (sat_img b) in
  exists s',
    validation_batch logger e li item trs s =
      (if Z.eqb li 0 then Raise ZeroDivisionError
       else Ok (mt_updates_from (fst trs) [acc_update b],
                mt_updates_from (snd trs) [loss_update to_double (b, snd r)]), s') /\
    calls s' = calls s ++ valid_events (training (model s)) (b, snd r) /\
    state_dict (model s') = fst r /\
    eval_frame s s'.
Proof.
  intros b r. unfold validation_batch, py_mod.
  destruct (Z.eqb_spec li 0) as [E|E].
  - eexists. split; [cbn; reflexivity|]. split; [|repeat split].
    cbn. rewrite <- !app_assoc. reflexivity.
  - destruct (Z.eqb_spec (item.1 mod li) 0) as [E0|E0].
    + mrun. rewrite (proj2 (Z.eqb_eq _ _) E0). run_log validation_log_run.
      eexists. split; [reflexivity|]. split; [|repeat split].
      cbn. rewrite <- !app_assoc. reflexivity.
    + mrun. rewrite (proj2 (Z.eqb_neq _ _) E0).
      eexists. split; [reflexivity|]. split; [|repeat split].
      cbn. rewrite <- !app_assoc. reflexivity.
Qed.

(** ** The loop over the batches *)

Lemma enumerate_from_snd {A} (l : list A) : forall i, map snd (enumerate_from i l) = l.
Proof. induction l as [|a l IH]; intros i; cbn; [reflexivity|]. now rewrite IH. Qed.

Lemma enumerate_from_length {A} (l : list A) : forall i, length (enumerate_from i l) = length l.
Proof. induction l as [|a l IH]; intros i; cbn; [reflexivity|]. now rewrite IH. Qed.

Lemma pass_batches_length d k : length (pass_batches d k) = dl_len d.
Proof. unfold pass_batches. now rewrite length_map, length_seq. Qed.

Lemma train_loop_ok logger e li :
  li <> 0 ->
  forall items trs s,
  exists ps s',
    length ps = length items /\
    for_fold items (train_batch logger e li) trs s =
      (Ok (mt_updates_from (fst trs) (map acc_update (map snd items)),
           mt_updates_from (snd trs)
             (map (loss_update to_float) (combine (map snd items) ps))), s') /\
    calls s' =
      calls s ++ flat_map (train_events (training (model s))) (combine (map snd items) ps) /\
    batch_frame s s'.
Proof.
  intros Hli. induction items as [|item items IH]; intros trs s.
  - exists [], s. cbn. rewrite app_nil_r. destruct trs.
    repeat split.
  - destruct (train_batch_run logger e li item trs s) as (s1 & E1 & C1 & F1).
    rewrite (proj2 (Z.eqb_neq _ _) Hli) in E1.
    match type of E1 with _ = (Ok ?t, _) => destruct (IH t s1) as (ps & s' & L & E & C & F) end.
    eexists (_ :: ps), s'. split; [cbn; now rewrite L|].
    split; [rewrite for_fold_cons, E1; exact E|].
    split; [|eapply batch_frame_trans; eassumption].
    rewrite C, C1. destruct F1 as (-> & _). cbn [map combine flat_map].
    now rewrite <- app_assoc.
Qed.

Lemma train_loop_zero logger e item items trs s :
  let b := snd item in
  let p := snd (forward (state_dict (model s)) (training (model s)) (sat_img b)) in
  exists s',
    for_fold (item :: items) (train_batch logger e 0) trs s = (Raise ZeroDivisionError, s') /\
    calls s' = calls s ++ train_events (training (model s)) (b, p) /\
    batch_frame s s'.
Proof.
  intros b p. destruct (train_batch_run logger e 0 item trs s) as (s1 & E1 & C1 & F1).
  exists s1. rewrite for_fold_cons, E1. auto.
Qed.

Lemma validation_loop_ok logger e li :
  li <> 0 ->
  forall items trs s,
  exists ps s',
    length ps = length items /\
    for_fold items (validation_batch logger e li) trs s =
      (Ok (mt_updates_from (fst trs) (map acc_update (map snd items)),
           mt_updates_from (snd trs)
             (map (loss_update to_double) (combine (map snd items) ps))), s') /\
    calls s' =
      calls s ++ flat_map (valid_events (training (model s))) (combine (map snd items) ps) /\
    eval_frame s s' /\
    ((forall sd x, fst (forward sd (training (model s)) x) = sd) ->
     state_dict (model s') = state_dict (model s)).
Proof.
  intros Hli. induction items as [|item items IH]; intros trs s.
  - exists [], s. cbn. rewrite app_nil_r. destruct trs.
    repeat split.
  - destruct (validation_batch_run logger e li item trs s) as (s1 & E1 & C1 & D1 & F1).
    rewrite (proj2 (Z.eqb_neq _ _) Hli) in E1.
    match type of E1 with _ = (Ok ?t, _) => destruct (IH t s1) as (ps & s' & L & E & C & F & D) end.
    eexists (_ :: ps), s'. split; [cbn; now rewrite L|].
    split; [rewrite for_fold_cons, E1; exact E|].
    assert (M1 : training (model s1) = training (model s)) by apply F1.
    split; [|split; [eapply eval_frame_trans; eassumption|]].
    + rewrite C, C1, M1. cbn [map combine flat_map]. now rewrite <- app_assoc.
    + intros Hp. rewrite D, D1; [apply Hp|]. now rewrite M1.
Qed.

Lemma validation_loop_zero logger e item items trs s :
  let b := snd item in
  let r := forward (state_dict (model s)) (training (model s)) (sat_img b) in
  exists s',
    for_fold (item :: items) (validation_batch logger e 0) trs s =
      (Raise ZeroDivisionError, s') /\
    calls s' = calls s ++ valid_events (training (model s)) (b, snd r) /\
    eval_frame s s' /\
    state_dict (model s') = fst r.
Proof.
  intros b r. destruct (validation_batch_run logger e 0 item trs s) as (s1 & E1 & C1 & D1 & F1).
  exists s1. rewrite for_fold_cons, E1. auto.
Qed.

(** ** The two passes *)

Lemma train_run dl logger e s :
  let batches := pass_batches dl (passes s) in
  let sch := StepLR_set_epoch (last_epoch (lr_scheduler s) + 1) (lr_scheduler s) in
  print_freq logger <> 0 ->
  len dl / print_freq logger <> 0 \/ dl_len dl = 0%nat ->
  exists ps s',
    length ps = dl_len dl /\
    train dl logger e s = (Ok (train_metrics batches ps), s') /\
    calls s' =
      calls s ++ Ev_scheduler_step ::
        flat_map (train_events (training (model s))) (combine batches ps) /\
    training (model s') = training (model s) /\
    lr_scheduler s' = sch /\
    lr (optimizer s') = get_lr sch /\
    momentum (optimizer s') = momentum (optimizer s) /\
    nesterov (optimizer s') = nesterov (optimizer s) /\
    fs s' = fs s /\
    stdout s' =
      stdout s ++ [Out_training (m_loss (train_metrics batches ps))
                                (m_acc (train_metrics batches ps)); Out_blank] /\
    passes s' = S (passes s).
Proof.
  intros batches sch Hpf Hli. unfold train, py_floordiv.
  destruct (Z.eqb_spec (print_freq logger) 0) as [|_]; [contradiction|].
  mrun. fold (pass_batches dl (passes s)). fold batches.
  assert (exists ps s',
    length ps = length (enumerate_from 0 batches) /\
    for_fold (enumerate_from 0 batches)
      (train_batch logger e (len dl / print_freq logger)) (mt_reset, mt_reset)
      (with_passes (S (passes s))
        (with_optimizer (set_lr (get_lr sch) (optimizer s))
          (with_lr_scheduler sch (with_calls (calls s ++ [Ev_scheduler_step]) s)))) =
      (Ok (mt_updates (map acc_update (map snd (enumerate_from 0 batches))),
           mt_updates (map (loss_update to_float)
                         (combine (map snd (enumerate_from 0 batches)) ps))), s') /\
    calls s' =
      (calls s ++ [Ev_scheduler_step]) ++
      flat_map (train_events (training (model s)))
        (combine (map snd (enumerate_from 0 batches)) ps) /\
    batch_frame
      (with_passes (S (passes s))
        (with_optimizer (set_lr (get_lr sch) (optimizer s))
          (with_lr_scheduler sch (with_calls (calls s ++ [Ev_scheduler_step]) s)))) s')
    as (ps & s' & L & E & C & F).
  { destruct Hli as [Hli|Hz].
    - exact (train_loop_ok logger e _ Hli (enumerate_from 0 batches) (mt_reset, mt_reset)
               (with_passes (S (passes s))
                 (with_optimizer (set_lr (get_lr sch) (optimizer s))
                   (with_lr_scheduler sch (with_calls (calls s ++ [Ev_scheduler_step]) s))))).
    - assert (batches = []) as ->.
      { apply length_zero_iff_nil. subst batches. now rewrite pass_batches_length. }
      eexists [], _. cbn. rewrite app_nil_r. repeat split. }
  rewrite enumerate_from_snd in E, C. rewrite enumerate_from_length in L.
  subst batches. rewrite pass_batches_length in L.
  exists ps, (with_stdout
     (stdout s' ++
        [Out_training (m_loss (train_metrics (pass_batches dl (passes s)) ps))
                      (m_acc (train_metrics (pass_batches dl (passes s)) ps)); Out_blank]) s').
  split; [exact L|].
  unfold sch in *. cbn in E. rewrite E. cbn.
  destruct F as (F1 & F2 & F3 & F4 & F5 & F6 & F7 & F8). cbn in *.
  split; [unfold train_metrics; cbn; now rewrite <- app_assoc|].
  split; [now rewrite C, <- app_assoc|].
  repeat split; try assumption. now rewrite F7.
Qed.

Lemma train_raise_freq dl logger e s :
  print_freq logger = 0 -> train dl logger e s = (Raise ZeroDivisionError, s).
Proof.
  intros H. unfold train, py_floordiv. rewrite H. reflexivity.
Qed.

Lemma pass_batches_cons d k :
  dl_len d <> 0%nat ->
  exists l, pass_batches d k = dl_batch d k 0%nat :: l.
Proof.
  unfold pass_batches. destruct (dl_len d) as [|n]; [contradiction|].
  intros _. cbn. eauto.
Qed.

Lemma train_raise_iter dl logger e s :
  let b := dl_batch dl (passes s) 0%nat in
  let p := snd (forward (state_dict (model s)) (training (model s)) (sat_img b)) in
  print_freq logger <> 0 ->
  len dl / print_freq logger = 0 ->
  dl_len dl <> 0%nat ->
  exists s',
    train dl logger e s = (Raise ZeroDivisionError, s') /\
    calls s' = calls s ++ Ev_scheduler_step :: train_events (training (model s)) (b, p).
Proof.
  intros b p Hpf Hli Hn. unfold train, py_floordiv.
  destruct (Z.eqb_spec (print_freq logger) 0) as [|_]; [contradiction|].
  rewrite Hli. mrun. fold (pass_batches dl (passes s)).
  destruct (pass_batches_cons dl (passes s) Hn) as [l ->]. cbn [enumerate_from].
  match goal with
  | |- context [for_fold (?it :: ?rest) _ ?t ?st] =>
      destruct (train_loop_zero logger e it rest t st) as (s' & E & C & F)
  end.
  rewrite E. exists s'. split; [reflexivity|].
  rewrite C. cbn. now rewrite <- app_assoc.
Qed.

Lemma validation_run dl logger e s :
  let batches := pass_batches dl (passes s) in
  print_freq logger <> 0 ->
  len dl / print_freq logger <> 0 \/ dl_len dl = 0%nat ->
  exists ps s',
    length ps = dl_len dl /\
    validation dl logger e s = (Ok (valid_metrics batches ps), s') /\
    calls s' =
      calls s ++ Ev_model_eval :: flat_map (valid_events false) (combine batches ps) /\
    training (model s') = false /\
    grads (model s') = grads (model s) /\
    optimizer s' = optimizer s /\
    lr_scheduler s' = lr_scheduler s /\
    fs s' = fs s /\
    stdout s' =
      stdout s ++ [Out_validation (m_loss (valid_metrics batches ps))
                                  (m_acc (valid_metrics batches ps)); Out_blank] /\
    passes s' = S (passes s) /\
    ((forall sd x, fst (forward sd false x) = sd) ->
     state_dict (model s') = state_dict (model s)).
Proof.
  intros batches Hpf Hli. unfold validation, py_floordiv.
  destruct (Z.eqb_spec (print_freq logger) 0) as [|_]; [contradiction|].
  mrun. fold (pass_batches dl (passes s)). fold batches.
  set (s0 := with_passes (S (passes s))
               (with_model (set_training false (model s))
                  (with_calls (calls s ++ [Ev_model_eval]) s))).
  assert (exists ps s',
    length ps = length (enumerate_from 0 batches) /\
    for_fold (enumerate_from 0 batches)
      (validation_batch logger e (len dl / print_freq logger)) (mt_reset, mt_reset) s0 =
      (Ok (mt_updates (map acc_update (map snd (enumerate_from 0 batches))),
           mt_updates (map (loss_update to_double)
                         (combine (map snd (enumerate_from 0 batches)) ps))), s') /\
    calls s' =
      calls s0 ++
      flat_map (valid_events (training (model s0)))
        (combine (map snd (enumerate_from 0 batches)) ps) /\
    eval_frame s0 s' /\
    ((forall sd x, fst (forward sd (training (model s0)) x) = sd) ->
     state_dict (model s') = state_dict (model s0)))
    as (ps & s' & L & E & C & F & D).
  { destruct Hli as [Hli|Hz].
    - exact (validation_loop_ok logger e _ Hli (enumerate_from 0 batches)
               (mt_reset, mt_reset) s0).
    - assert (batches = []) as ->.
      { apply length_zero_iff_nil. subst batches. now rewrite pass_batches_length. }
      eexists [], _. cbn. rewrite app_nil_r. repeat split. }
  rewrite enumerate_from_snd in E, C. rewrite enumerate_from_length in L.
  subst batches. rewrite pass_batches_length in L.
  exists ps, (with_stdout
     (stdout s' ++
        [Out_validation (m_loss (valid_metrics (pass_batches dl (passes s)) ps))
                        (m_acc (valid_metrics (pass_batches dl (passes s)) ps)); Out_blank]) s').
  split; [exact L|].
  rewrite E. cbn.
  destruct F as ((F1 & F2 & F3 & F4 & F5 & F6 & F7 & F8) & F9 & F10). cbn in *.
  split; [unfold valid_metrics; cbn; now rewrite <- app_assoc|].
  split; [now rewrite C, <- app_assoc|].
  repeat split; try assumption. now rewrite F7.
Qed.

Lemma validation_raise_freq dl logger e s :
  print_freq logger = 0 -> validation dl logger e s = (Raise ZeroDivisionError, s).
Proof.
  intros H. unfold validation, py_floordiv. rewrite H. reflexivity.
Qed.

Lemma validation_raise_iter dl logger e s :
  let b := dl_batch dl (passes s) 0%nat in
  let p := snd (forward (state_dict (model s)) false (sat_img b)) in
  print_freq logger <> 0 ->
  len dl / print_freq logger = 0 ->
  dl_len dl <> 0%nat ->
  exists s',
    validation dl logger e s = (Raise ZeroDivisionError, s') /\
    calls s' = calls s ++ Ev_model_eval :: valid_events false (b, p).
Proof.
  intros b p Hpf Hli Hn. unfold validation, py_floordiv.
  destruct (Z.eqb_spec (print_freq logger) 0) as [|_]; [contradiction|].
  rewrite Hli. mrun. fold (pass_batches dl (passes s)).
  destruct (pass_batches_cons dl (passes s) Hn) as [l ->]. cbn [enumerate_from].
  match goal with
  | |- context [for_fold (?it :: ?rest) _ ?t ?st] =>
      destruct (validation_loop_zero logger e it rest t st) as (s' & E & C & F)
  end.
  rewrite E. exists s'. split; [reflexivity|].
  rewrite C. cbn. now rewrite <- app_assoc.
Qed.

(** ** One epoch of [main] *)

Lemma main_epoch_run tl vl tlog vlog n e best s :
  cadence_ok tl (print_freq tlog) ->
  cadence_ok vl (print_freq vlog) ->
  exists best' vm s',
    main_epoch tl vl tlog vlog n e best s = (Ok (best', vm), s') /\
    epoch_post tl vl n e best s best' vm s'.
Proof.
  intros [Ht1 Ht2] [Hv1 Hv2]. unfold main_epoch.
  rewrite run_bind. cbn [print modify]. rewrite run_bind. cbn [print modify].
  set (s0 := with_stdout _ _).
  destruct (train_run tl tlog e s0 Ht1 Ht2)
    as (pt & s1 & Lt & Et & Ct & Mt & St & Rt & Mo & Ne & Ft & Ot & Pt).
  rewrite run_bind, Et.
  destruct (validation_run vl vlog e s1 Hv1 Hv2)
    as (pv & s2 & Lv & Ev & Cv & Mv & Gv & Opv & Sv & Fv & Ov & Pv & _).
  rewrite run_bind, Ev. rewrite Pt in *. subst s0. state_simpl_all.
  remember (valid_metrics (pass_batches vl (S (passes s))) pv) as vm eqn:Hvm.
  remember (train_metrics (pass_batches tl (passes s)) pt) as tm eqn:Htm.
  unfold save_checkpoint, torch_save, copyfile. mrun.
  assert (Hc : calls s2 =
    calls s
    ++ (Ev_scheduler_step :: flat_map (train_events (training (model s)))
                               (combine (pass_batches tl (passes s)) pt))
    ++ (Ev_model_eval :: flat_map (valid_events false)
                           (combine (pass_batches vl (S (passes s))) pv))).
  { rewrite Cv, Ct. cbn. now rewrite <- !app_assoc. }
  assert (Ho : stdout s2 =
    stdout s ++ [Out_epoch e (n - 1); Out_dashes; Out_training (m_loss tm) (m_acc tm);
                 Out_blank; Out_validation (m_loss vm) (m_acc vm); Out_blank]).
  { rewrite Ov, Ot. cbn. now rewrite <- !app_assoc. }
  assert (Hl : lr (optimizer s2) = get_lr (lr_scheduler s2)).
  { rewrite Opv, Rt. now rewrite Sv, St. }
  assert (Hf : fs s2 = fs s) by (now rewrite Fv, Ft).
  destruct (py_lt (m_loss vm) best) eqn:Hb.
  - state_simpl. rewrite lookup_insert_eq. state_simpl.
    eexists _, _, _. split; [reflexivity|]. exists pt, pv. cbv zeta. unfold epoch_record. state_simpl.
    rewrite <- Hvm, <- Htm, Hb, Hc, Ho, Hf.
    repeat split; try assumption; try congruence; now rewrite <- ?app_assoc.
  - cbn.
    eexists _, _, _. split; [reflexivity|]. exists pt, pv. cbv zeta. unfold epoch_record. state_simpl.
    rewrite <- Hvm, <- Htm, Hb, Hc, Ho, Hf.
    repeat split; try assumption; try congruence; now rewrite <- ?app_assoc.
Qed.

Lemma cadence_cases d freq :
  cadence_ok d freq \/
  freq = 0 \/
  (freq <> 0 /\ len d / freq = 0 /\ dl_len d <> 0%nat).
Proof.
  unfold cadence_ok.
  destruct (Z.eq_dec freq 0) as [|Hf]; [auto|].
  destruct (Z.eq_dec (len d / freq) 0) as [Hl|Hl]; [|auto].
  destruct (Nat.eq_dec (dl_len d) 0%nat) as [Hn|Hn]; auto.
Qed.

Lemma train_raises dl logger e s :
  ~ cadence_ok dl (print_freq logger) ->
  exists s', train dl logger e s = (Raise ZeroDivisionError, s').
Proof.
  intros H. destruct (cadence_cases dl (print_freq logger)) as [?|[Hf|(Hf & Hl & Hn)]].
  - contradiction.
  - exists s. now apply train_raise_freq.
  - destruct (train_raise_iter dl logger e s Hf Hl Hn) as (s' & E & _). eauto.
Qed.

Lemma validation_raises dl logger e s :
  ~ cadence_ok dl (print_freq logger) ->
  exists s', validation dl logger e s = (Raise ZeroDivisionError, s').
Proof.
  intros H. destruct (cadence_cases dl (print_freq logger)) as [?|[Hf|(Hf & Hl & Hn)]].
  - contradiction.
  - exists s. now apply validation_raise_freq.
  - destruct (validation_raise_iter dl logger e s Hf Hl Hn) as (s' & E & _). eauto.
Qed.

Lemma train_total dl logger e s :
  is_ok (fst (train dl logger e s)) = true <-> cadence_ok dl (print_freq logger).
Proof.
  split.
  - intros H. destruct (cadence_cases dl (print_freq logger)) as [?|Hbad]; [assumption|].
    destruct (train_raises dl logger e s) as [s' E].
    + intros [? [?|?]]; destruct Hbad as [?|(?&?&?)]; congruence.
    + rewrite E in H. discriminate.
  - intros [H1 H2]. destruct (train_run dl logger e s H1 H2) as (ps & s' & _ & E & _).
    now rewrite E.
Qed.

Lemma validation_total dl logger e s :
  is_ok (fst (validation dl logger e s)) = true <-> cadence_ok dl (print_freq logger).
Proof.
  split.
  - intros H. destruct (cadence_cases dl (print_freq logger)) as [?|Hbad]; [assumption|].
    destruct (validation_raises dl logger e s) as [s' E].
    + intros [? [?|?]]; destruct Hbad as [?|(?&?&?)]; congruence.
    + rewrite E in H. discriminate.
  - intros [H1 H2]. destruct (validation_run dl logger e s H1 H2) as (ps & s' & _ & E & _).
    now rewrite E.
Qed.

Lemma main_epoch_inv tl vl tlog vlog n e best s best' vm s' :
  main_epoch tl vl tlog vlog n e best s = (Ok (best', vm), s') ->
  cadence_ok tl (print_freq tlog) /\
  cadence_ok vl (print_freq vlog) /\
  epoch_post tl vl n e best s best' vm s'.
Proof.
  intros E.
  assert (Ht : cadence_ok tl (print_freq tlog)).
  { apply (train_total tl tlog e
             (with_stdout ((stdout s ++ [Out_epoch e (n - 1)]) ++ [Out_dashes])
                (with_stdout (stdout s ++ [Out_epoch e (n - 1)]) s))).
    unfold main_epoch in E. rewrite run_bind in E. cbn [print modify] in E.
    rewrite run_bind in E. cbn [print modify] in E. rewrite run_bind in E.
    destruct (train _ _ _ _) as [[?|?] ?]; [reflexivity|discriminate]. }
  assert (Hv : cadence_ok vl (print_freq vlog)).
  { destruct Ht as [Ht1 Ht2].
    unfold main_epoch in E. rewrite run_bind in E. cbn [print modify] in E.
    rewrite run_bind in E. cbn [print modify] in E. rewrite run_bind in E.
    match type of E with context [train tl tlog e ?st] =>
      destruct (train_run tl tlog e st Ht1 Ht2) as (pt & s1 & _ & Et & _) end.
    rewrite Et, run_bind in E. apply (validation_total vl vlog e s1).
    destruct (validation _ _ _ _) as [[?|?] ?]; [reflexivity|discriminate]. }
  split; [assumption|]. split; [assumption|].
  destruct (main_epoch_run tl vl tlog vlog n e best s Ht Hv) as (b & m & s2 & E2 & P).
  rewrite E2 in E. now inversion E; subst.
Qed.

(** ** The epochs of a run *)

Lemma history_chain tl vl tlog vlog n epochs :
  forall best s, chain tl vl n best s epochs (history tl vl tlog vlog n epochs best s).
Proof.
  induction epochs as [|e es IH]; intros best s; cbn [history]; [constructor|].
  destruct (main_epoch tl vl tlog vlog n e best s) as [[[b vm]|x] s'] eqn:E; [|constructor].
  apply main_epoch_inv in E as (_ & _ & P).
  constructor; try reflexivity; [exact P|apply IH].
Qed.


(** ** Comparisons *)

Lemma py_lt_true a b : py_lt a b = true <-> (a < b)%Q.
Proof.
  unfold py_lt. destruct (Qlt_le_dec a b) as [H|H]; split; intros; try easy.
  exfalso. eapply Qlt_not_le; eassumption.
Qed.

Lemma py_lt_false a b : py_lt a b = false <-> (b <= a)%Q.
Proof.
  unfold py_lt. destruct (Qlt_le_dec a b) as [H|H]; split; intros; try easy.
  exfalso. eapply Qlt_not_le; eassumption.
Qed.

Lemma lt_py_min v a b : (v < py_min a b)%Q <-> (v < a)%Q /\ (v < b)%Q.
Proof.
  unfold py_min. destruct (py_lt b a) eqn:E.
  - apply py_lt_true in E. split; [|tauto].
    intros H. split; [eapply Qlt_trans; eassumption|assumption].
  - apply py_lt_false in E. split; [|tauto].
    intros H. split; [assumption|eapply Qlt_le_trans; eassumption].
Qed.

(** [best_loss] after the losses [vs], from [b0]. *)
Lemma lt_running_best v vs : forall b0,
  (v < fold_left (fun b v' => py_min v' b) vs b0)%Q <->
  (v < b0)%Q /\ Forall (fun v' => (v < v')%Q) vs.
Proof.
  induction vs as [|v' vs IH]; intros b0; cbn [fold_left].
  - split; [intros; split; [assumption|constructor]|tauto].
  - rewrite IH, lt_py_min, Forall_cons. tauto.
Qed.

(** ** Facts about the epochs of a run *)

Lemma chain_lookup tl vl n b s es h i r :
  chain tl vl n b s es h ->
  h !! i = Some r ->
  es !! i = Some (er_epoch r) /\
  epoch_post tl vl n (er_epoch r) (er_best_before r) (er_before r)
             (er_best r) (er_valid r) (er_after r).
Proof.
  intros C. revert i. induction C as [|b s e es r0 h He Hb Hs P C IH]; intros i Hi.
  - discriminate.
  - destruct i as [|i]; cbn in Hi.
    + inversion Hi; subst. split; [reflexivity|assumption].
    + apply IH in Hi. exact Hi.
Qed.

Lemma chain_best_before tl vl n b s es h i r :
  chain tl vl n b s es h ->
  h !! i = Some r ->
  er_best_before r = fold_left (fun b v' => py_min v' b) (map valid_loss (take i h)) b.
Proof.
  intros C. revert i. induction C as [|b s e es r0 h He Hb Hs P C IH]; intros i Hi.
  - discriminate.
  - destruct i as [|i]; cbn in Hi.
    + inversion Hi; subst. reflexivity.
    + cbn [take map fold_left]. rewrite (IH _ Hi).
      destruct P as (pt & pv & _ & _ & _ & -> & _). reflexivity.
Qed.

Lemma chain_first tl vl n b s es h r :
  chain tl vl n b s es h ->
  h !! 0%nat = Some r ->
  er_before r = s /\ er_best_before r = b.
Proof.
  intros C Hi. destruct C; [discriminate|]. cbn in Hi. inversion Hi; subst. auto.
Qed.

Lemma chain_next tl vl n b s es h i r r' :
  chain tl vl n b s es h ->
  h !! i = Some r ->
  h !! S i = Some r' ->
  er_before r' = er_after r /\ er_best_before r' = er_best r.
Proof.
  intros C. revert i. induction C as [|b s e es r0 h He Hb Hs P C IH]; intros i Hi Hi'.
  - discriminate.
  - destruct i as [|i]; cbn in Hi, Hi'.
    + inversion Hi; subst. eapply chain_first; eassumption.
    + eapply IH; eassumption.
Qed.

Lemma paths_differ : checkpoint_path <> best_path.
Proof. discriminate. Qed.

Lemma epoch_post_files tl vl n e best s best' vm s' :
  epoch_post tl vl n e best s best' vm s' ->
  fs s' !! checkpoint_path = Some (FCheckpoint (epoch_record e best' s')) /\
  fs s' !! best_path =
    (if py_lt (m_loss vm) best then Some (FCheckpoint (epoch_record e best' s'))
     else fs s !! best_path).
Proof.
  intros (pt & pv & _ & _ & _ & _ & _ & F & _). cbv zeta in F. rewrite F.
  destruct (py_lt (m_loss vm) best).
  - rewrite lookup_insert_eq. rewrite lookup_insert_ne by (intros H; symmetry in H; now apply paths_differ in H).
    now rewrite lookup_insert_eq.
  - rewrite lookup_insert_eq. now rewrite lookup_insert_ne by apply paths_differ.
Qed.

Lemma epoch_post_other_files tl vl n e best s best' vm s' path :
  epoch_post tl vl n e best s best' vm s' ->
  path <> checkpoint_path ->
  path <> best_path ->
  fs s' !! path = fs s !! path.
Proof.
  intros (pt & pv & _ & _ & _ & _ & _ & F & _) H1 H2. cbv zeta in F. rewrite F.
  destruct (py_lt (m_loss vm) best); rewrite ?lookup_insert_ne by congruence; reflexivity.
Qed.

Lemma no_copy_in_train mode l : existsb is_copy_to_best (flat_map (train_events mode) l) = false.
Proof. induction l as [|x l IH]; [reflexivity|]. cbn. exact IH. Qed.

Lemma no_copy_in_valid mode l : existsb is_copy_to_best (flat_map (valid_events mode) l) = false.
Proof. induction l as [|x l IH]; [reflexivity|]. cbn. exact IH. Qed.

Lemma epoch_post_copied tl vl n e best s best' vm s' :
  epoch_post tl vl n e best s best' vm s' ->
  existsb is_copy_to_best (drop (length (calls s)) (calls s')) = py_lt (m_loss vm) best.
Proof.
  intros (pt & pv & _ & _ & _ & _ & C & _). cbv zeta in C. rewrite C.
  rewrite drop_app_length. rewrite !existsb_app. cbn [existsb is_copy_to_best].
  rewrite no_copy_in_train, no_copy_in_valid. cbn.
  destruct (py_lt (m_loss vm) best); [|reflexivity].
  cbn. rewrite !bool_decide_eq_true_2 by reflexivity. reflexivity.
Qed.

(** ** The set-up of [main] *)

Lemma main_init_run learning_rate mom s :
  main_init learning_rate mom s = (Ok tt, fresh_state learning_rate mom s).
Proof. reflexivity. Qed.

Lemma main_setup_fresh args learning_rate mom s :
  main_setup args learning_rate mom "" s = (Ok (999%Q, 0), fresh_state learning_rate mom s).
Proof. reflexivity. Qed.

Lemma main_setup_missing a learning_rate mom resume s :
  resume <> "" ->
  fs s !! resume = None ->
  main_setup (Some a) learning_rate mom resume s =
    (Ok (999%Q, 0),
     with_stdout (stdout s ++ [Out_no_checkpoint (a_resume a)])
       (fresh_state learning_rate mom s)).
Proof.
  intros Hr Hf. unfold main_setup. rewrite run_bind, main_init_run.
  unfold main_resume. rewrite bool_decide_eq_false_2 by assumption.
  unfold isfile. mrun. rewrite Hf.
  rewrite bool_decide_eq_false_2 by (intros [? ?]; discriminate). reflexivity.
Qed.

Lemma main_setup_unbound learning_rate mom resume s :
  resume <> "" ->
  fs s !! resume = None ->
  main_setup None learning_rate mom resume s =
    (Raise NameError, fresh_state learning_rate mom s).
Proof.
  intros Hr Hf. unfold main_setup. rewrite run_bind, main_init_run.
  unfold main_resume. rewrite bool_decide_eq_false_2 by assumption.
  unfold isfile. mrun. rewrite Hf.
  rewrite bool_decide_eq_false_2 by (intros [? ?]; discriminate). reflexivity.
Qed.

Lemma main_setup_resume args learning_rate mom resume c s :
  resume <> "" ->
  fs s !! resume = Some (FCheckpoint c) ->
  main_setup args learning_rate mom resume s =
    (Ok (ck_best_loss c, ck_epoch c),
     with_stdout (stdout s ++ [Out_loading resume; Out_loaded resume (ck_epoch c)])
       (with_optimizer (ck_optimizer c)
          (with_model (set_state_dict (ck_state_dict c) fresh_model)
             (with_calls (calls s ++ [Ev_load resume])
                (fresh_state learning_rate mom s))))).
Proof.
  intros Hr Hf. unfold main_setup. rewrite run_bind, main_init_run.
  unfold main_resume. rewrite bool_decide_eq_false_2 by assumption.
  unfold isfile, torch_load, model_load_state_dict, optimizer_load_state_dict. mrun.
  rewrite Hf. rewrite bool_decide_eq_true_2 by eauto.
  unfold fresh_state. state_simpl. rewrite Hf. state_simpl.
  rewrite <- app_assoc. reflexivity.
Qed.

(** ** The loop of [main] *)

Lemma final_state_cons r h s : final_state (r :: h) s = final_state h (er_after r).
Proof. unfold final_state. rewrite last_cons. destruct (last h); reflexivity. Qed.

Lemma final_best_cons r h b : final_best (r :: h) b = final_best h (er_best r).
Proof. unfold final_best. rewrite last_cons. destruct (last h); reflexivity. Qed.


Lemma main_unfold args data_path batch_size n learning_rate mom freq run resume data_set s :
  main args data_path batch_size n learning_rate mom freq run resume data_set s =
  match main_setup args learning_rate mom resume s with
  | (Ok start, s1) =>
      main_loop (train_dataloader data_path data_set batch_size)
                (val_dataloader data_path data_set)
                (Logger_new (train_log_dir run) freq)
                (Logger_new (val_log_dir run) freq)
                (snd start) n (fst start) s1
  | (Raise e, s1) => (Raise e, s1)
  end.
Proof.
  unfold main, main_setup. rewrite !run_bind, main_init_run. cbv beta iota.
  rewrite run_bind.
  destruct (main_resume args resume _) as [[?|?] ?]; reflexivity.
Qed.


(** ** The framework calls of a pass, whatever its outcome *)

Lemma batches_done_ok d freq : cadence_ok d freq -> batches_done d freq = dl_len d.
Proof.
  intros [Hf Hl]. unfold batches_done.
  rewrite (proj2 (Z.eqb_neq _ _) Hf).
  destruct (Z.eqb_spec (len d / freq) 0) as [E|E]; [|reflexivity].
  destruct Hl as [Hl| ->]; [contradiction|reflexivity].
Qed.

Lemma train_calls dl logger e s :
  exists ps,
    length ps = batches_done dl (print_freq logger) /\
    calls (snd (train dl logger e s)) =
      calls s ++
      (if Z.eqb (print_freq logger) 0 then []
       else Ev_scheduler_step ::
            flat_map (train_events (training (model s)))
                     (combine (pass_batches dl (passes s)) ps)).
Proof.
  destruct (cadence_cases dl (print_freq logger)) as [Hc|[Hf|(Hf & Hl & Hn)]].
  - destruct (Hc) as [H1 H2].
    destruct (train_run dl logger e s H1 H2) as (ps & s' & L & E & C & _).
    exists ps. rewrite E, (batches_done_ok _ _ Hc), (proj2 (Z.eqb_neq _ _) H1). auto.
  - exists []. rewrite (train_raise_freq _ _ _ _ Hf). unfold batches_done.
    rewrite Hf. cbn. now rewrite app_nil_r.
  - destruct (train_raise_iter dl logger e s Hf Hl Hn) as (s' & E & C).
    eexists [_]. rewrite E. unfold batches_done.
    rewrite (proj2 (Z.eqb_neq _ _) Hf), Hl. cbn [Z.eqb snd].
    destruct (pass_batches_cons dl (passes s) Hn) as [l ->].
    split; [destruct (dl_len dl); [contradiction|reflexivity]|].
    rewrite C. cbn [combine flat_map]. rewrite combine_nil. cbn [flat_map].
    now rewrite app_nil_r.
Qed.

Lemma validation_calls dl logger e s :
  exists ps,
    length ps = batches_done dl (print_freq logger) /\
    calls (snd (validation dl logger e s)) =
      calls s ++
      (if Z.eqb (print_freq logger) 0 then []
       else Ev_model_eval ::
            flat_map (valid_events false) (combine (pass_batches dl (passes s)) ps)).
Proof.
  destruct (cadence_cases dl (print_freq logger)) as [Hc|[Hf|(Hf & Hl & Hn)]].
  - destruct (Hc) as [H1 H2].
    destruct (validation_run dl logger e s H1 H2) as (ps & s' & L & E & C & _).
    exists ps. rewrite E, (batches_done_ok _ _ Hc), (proj2 (Z.eqb_neq _ _) H1). auto.
  - exists []. rewrite (validation_raise_freq _ _ _ _ Hf). unfold batches_done.
    rewrite Hf. cbn. now rewrite app_nil_r.
  - destruct (validation_raise_iter dl logger e s Hf Hl Hn) as (s' & E & C).
    eexists [_]. rewrite E. unfold batches_done.
    rewrite (proj2 (Z.eqb_neq _ _) Hf), Hl. cbn [Z.eqb snd].
    destruct (pass_batches_cons dl (passes s) Hn) as [l ->].
    split; [destruct (dl_len dl); [contradiction|reflexivity]|].
    rewrite C. cbn [combine flat_map]. rewrite combine_nil. cbn [flat_map].
    now rewrite app_nil_r.
Qed.


Lemma count_events_none (p : event -> bool) (f : Batch Tensor * Tensor -> list event) l :
  (forall x, count_event p (f x) = 0%nat) ->
  count_event p (flat_map f l) = 0%nat.
Proof.
  intros H. unfold count_event in *. induction l as [|x l IH]; [reflexivity|].
  cbn [flat_map]. rewrite List.filter_app, length_app, H, IH. reflexivity.
Qed.



(** ** The training pass, batch by batch *)


(** ** What the trackers receive *)



(** ** The logging cadence *)





(** ** The files are written by [save_checkpoint] only *)

Lemma train_frame dl logger e s :
  let s' := snd (train dl logger e s) in
  fs s' = fs s /\
  training (model s') = training (model s) /\
  (print_freq logger <> 0 ->
   lr_scheduler s' = StepLR_set_epoch (last_epoch (lr_scheduler s) + 1) (lr_scheduler s) /\
   lr (optimizer s') = get_lr (lr_scheduler s')).
Proof.
  destruct (cadence_cases dl (print_freq logger)) as [[H1 H2]|[Hf|(Hf & Hl & Hn)]].
  - destruct (train_run dl logger e s H1 H2)
      as (ps & s' & _ & E & _ & M & S & L & _ & _ & F & _).
    rewrite E. cbn [snd]. rewrite S. repeat split; auto.
  - rewrite train_raise_freq by assumption. cbn. repeat split; contradiction.
  - unfold train, py_floordiv.
    destruct (Z.eqb_spec (print_freq logger) 0) as [|_]; [contradiction|].
    rewrite Hl. mrun. fold (pass_batches dl (passes s)).
    destruct (pass_batches_cons dl (passes s) Hn) as [l ->]. cbn [enumerate_from].
    match goal with
    | |- context [for_fold (?it :: ?rest) _ ?t ?st] =>
        destruct (train_loop_zero logger e it rest t st) as (s' & E & C & F)
    end.
    rewrite E. cbn [snd]. destruct F as (F1 & F2 & F3 & _ & _ & F & _).
    state_simpl_all. rewrite F2. repeat split; auto.
Qed.

Lemma validation_frame dl logger e s :
  let s' := snd (validation dl logger e s) in
  fs s' = fs s /\
  lr_scheduler s' = lr_scheduler s /\
  optimizer s' = optimizer s /\
  grads (model s') = grads (model s) /\
  (print_freq logger <> 0 -> training (model s') = false) /\
  ((forall sd x, fst (forward sd false x) = sd) ->
   state_dict (model s') = state_dict (model s)).
Proof.
  destruct (cadence_cases dl (print_freq logger)) as [[H1 H2]|[Hf|(Hf & Hl & Hn)]].
  - destruct (validation_run dl logger e s H1 H2)
      as (ps & s' & _ & E & _ & M & G & O & S & F & _ & _ & D).
    rewrite E. cbn [snd]. repeat split; auto.
  - rewrite validation_raise_freq by assumption. cbn. repeat split; auto; contradiction.
  - unfold validation, py_floordiv.
    destruct (Z.eqb_spec (print_freq logger) 0) as [|_]; [contradiction|].
    rewrite Hl. mrun. fold (pass_batches dl (passes s)).
    destruct (pass_batches_cons dl (passes s) Hn) as [l ->]. cbn [enumerate_from].
    match goal with
    | |- context [for_fold (?it :: ?rest) _ ?t ?st] =>
        destruct (validation_loop_zero logger e it rest t st) as (s' & E & C & F & D)
    end.
    rewrite E. cbn [snd].
    destruct F as ((F1 & F2 & _ & _ & _ & F & _) & F3 & F4). state_simpl_all.
    repeat split; try assumption; intros Hp; [exact F1|].
    rewrite D. apply Hp.
Qed.

Lemma train_fs dl logger e s : fs (snd (train dl logger e s)) = fs s.
Proof. apply train_frame. Qed.

Lemma validation_fs dl logger e s : fs (snd (validation dl logger e s)) = fs s.
Proof. apply validation_frame. Qed.

Lemma main_epoch_raise_fs tl vl tlog vlog n e best s x s' :
  main_epoch tl vl tlog vlog n e best s = (Raise x, s') -> fs s' = fs s.
Proof.
  unfold main_epoch. rewrite run_bind. cbn [print modify]. rewrite run_bind.
  cbn [print modify]. rewrite run_bind.
  match goal with |- context [train tl tlog e ?st] =>
    pose proof (train_fs tl tlog e st) as Ft; destruct (train tl tlog e st) as [[tm|y] s1] end.
  - rewrite run_bind.
    pose proof (validation_fs vl vlog e s1) as Fv.
    destruct (validation vl vlog e s1) as [[vm|y] s2].
    + unfold save_checkpoint, torch_save, copyfile. mrun.
      destruct (py_lt (m_loss vm) best).
      * state_simpl. rewrite lookup_insert_eq. discriminate.
      * discriminate.
    + intros H. inversion H; subst. cbn in *. congruence.
  - intros H. inversion H; subst. cbn in *. congruence.
Qed.

Lemma main_fold_fs tl vl tlog vlog n epochs :
  forall best s,
  fs (snd (for_fold epochs
             (fun epoch b => r ← main_epoch tl vl tlog vlog n epoch b; mret (fst r)) best s)) =
  fs (final_state (history tl vl tlog vlog n epochs best s) s).
Proof.
  induction epochs as [|e es IH]; intros best s; [reflexivity|].
  cbn [history]. rewrite for_fold_cons, run_bind.
  destruct (main_epoch tl vl tlog vlog n e best s) as [[r|x] s'] eqn:E.
  - cbn [mret M_ret]. rewrite final_state_cons. cbn [er_after]. apply IH.
  - cbn. now apply main_epoch_raise_fs in E.
Qed.

Lemma main_loop_fs tl vl tlog vlog start n best s :
  fs (snd (main_loop tl vl tlog vlog start n best s)) =
  fs (final_state (history tl vl tlog vlog n (range start n) best s) s).
Proof.
  unfold main_loop. rewrite run_bind.
  pose proof (main_fold_fs tl vl tlog vlog n (range start n) best s) as H.
  destruct (for_fold _ _ _ _) as [[b|x] s']; exact H.
Qed.

(** ** Checkpoints *)

Lemma py_min_lt a b : (a < b)%Q -> py_min a b = a.
Proof.
  intros H. unfold py_min. destruct (py_lt b a) eqn:E; [|reflexivity].
  apply py_lt_true in E. exfalso. apply (Qlt_irrefl a). eapply Qlt_trans; eassumption.
Qed.

Lemma py_min_ge a b : (b <= a)%Q -> (py_min a b == b)%Q.
Proof.
  intros H. unfold py_min. destruct (py_lt b a) eqn:E; [reflexivity|].
  apply py_lt_false in E. now apply Qle_antisym.
Qed.

Lemma epoch_files tl vl tlog vlog n epochs b0 s i r :
  let h := history tl vl tlog vlog n epochs b0 s in
  h !! i = Some r ->
  let improved :=
    (valid_loss r < b0)%Q /\ Forall (fun r' => (valid_loss r < valid_loss r')%Q) (take i h) in
  fs (er_after r) !! checkpoint_path = Some (FCheckpoint (record_of r)) /\
  er_best r = py_min (valid_loss r) (er_best_before r) /\
  ((valid_loss r < er_best_before r)%Q <-> improved) /\
  (copied_to_best r = true <-> improved) /\
  (improved -> fs (er_after r) !! best_path = Some (FCheckpoint (record_of r))) /\
  (~ improved -> fs (er_after r) !! best_path = fs (er_before r) !! best_path).
Proof.
  intros h Hi improved.
  pose proof (history_chain tl vl tlog vlog n epochs b0 s) as C. fold h in C.
  destruct (chain_lookup _ _ _ _ _ _ _ _ _ C Hi) as [_ P].
  pose proof (chain_best_before _ _ _ _ _ _ _ _ _ C Hi) as Hb.
  destruct (epoch_post_files _ _ _ _ _ _ _ _ _ P) as [F1 F2].
  pose proof (epoch_post_copied _ _ _ _ _ _ _ _ _ P) as Hc.
  assert (Hi' : (valid_loss r < er_best_before r)%Q <-> improved).
  { rewrite Hb, lt_running_best, Forall_map. reflexivity. }
  split; [exact F1|]. split; [now destruct P as (? & ? & _ & _ & _ & ? & _)|].
  split; [exact Hi'|].
  fold (epoch_calls r) in Hc. fold (copied_to_best r) in Hc. fold (valid_loss r) in Hc, F2.
  split; [now rewrite Hc, py_lt_true|]. split.
  - intros H. apply Hi', py_lt_true in H. now rewrite F2, H.
  - intros H. destruct (py_lt (valid_loss r) (er_best_before r)) eqn:E; [|exact F2].
    exfalso. apply H, Hi', py_lt_true. exact E.
Qed.

Lemma best_of_four tl vl tlog vlog n epochs s :
  let h := history tl vl tlog vlog n epochs 999 s in
  Forall2 Qeq (map valid_loss h) [5 # 10; 3 # 10; 4 # 10; 2 # 10]%Q ->
  exists r, h !! 3%nat = Some r /\
    final_state h s = er_after r /\
    (valid_loss r == 2 # 10)%Q /\
    fs (er_after r) !! best_path = Some (FCheckpoint (record_of r)) /\
    (ck_best_loss (record_of r) == 2 # 10)%Q.
Proof.
  intros h H.
  pose proof (epoch_files tl vl tlog vlog n epochs 999 s 3) as L. fold h in L.
  destruct h as [|r0 [|r1 [|r2 [|r3 [|r4 h]]]]]; cbn [map] in H;
    try (repeat match goal with
                | H : Forall2 _ _ _ |- _ => inversion H; clear H; subst
                end; fail).
  apply Forall2_cons in H as [H0 H]. apply Forall2_cons in H as [H1 H].
  apply Forall2_cons in H as [H2 H]. apply Forall2_cons in H as [H3 _].
  exists r3. split; [reflexivity|]. split; [reflexivity|]. split; [exact H3|].
  destruct (L r3 eq_refl) as (_ & Hb & Hlt & _ & Hi & _).
  assert (I : (valid_loss r3 < 999)%Q /\
              Forall (fun r' => (valid_loss r3 < valid_loss r')%Q) [r0; r1; r2]).
  { split; [rewrite H3; reflexivity|].
    apply Forall_cons; split; [rewrite H3, H0; reflexivity|].
    apply Forall_cons; split; [rewrite H3, H1; reflexivity|].
    apply Forall_cons; split; [rewrite H3, H2; reflexivity|]. constructor. }
  split; [exact (Hi I)|].
  cbn [record_of epoch_record ck_best_loss]. rewrite Hb.
  rewrite py_min_lt by (apply Hlt; exact I). exact H3.
Qed.

(** C1, as amended.  Every epoch of a run writes its record (the epoch
    number, the weights, the optimizer state and the running best loss) to
    the fixed checkpoint location.  It copies it to the "best" location
    exactly when its validation loss is strictly lower than the value
    [best_loss] had when the loop started and than the validation loss of
    every earlier epoch of the run; otherwise the "best" location is left as
    it was.  On a run that starts from the default [best_loss] of 999 and
    measures the validation losses 0.5, 0.3, 0.4, 0.2, the "best" location
    ends with the record of the fourth epoch, whose best loss is 0.2. *)
Theorem checkpoint_every_epoch_best_on_improvement
    (tl vl : DataLoader Tensor) (tlog vlog : Logger) (n : Z) (epochs : list Z) (s : State) :
  (forall (b0 : Q) (i : nat) (r : EpochRun),
     let h := history tl vl tlog vlog n epochs b0 s in
     h !! i = Some r ->
     let improved :=
       (valid_loss r < b0)%Q /\
       Forall (fun r' => (valid_loss r < valid_loss r')%Q) (take i h) in
     fs (er_after r) !! checkpoint_path = Some (FCheckpoint (record_of r)) /\
     record_of r =
       {| ck_epoch := er_epoch r; ck_arch := "UNet";
          ck_state_dict := state_dict (model (er_after r));
          ck_best_loss := py_min (valid_loss r) (er_best_before r);
          ck_optimizer := optimizer (er_after r) |} /\
     (copied_to_best r = true <-> improved) /\
     (improved -> fs (er_after r) !! best_path = Some (FCheckpoint (record_of r))) /\
     (~ improved -> fs (er_after r) !! best_path = fs (er_before r) !! best_path)) /\
  (let h := history tl vl tlog vlog n epochs 999 s in
   Forall2 Qeq (map valid_loss h) [5 # 10; 3 # 10; 4 # 10; 2 # 10]%Q ->
   exists r, h !! 3%nat = Some r /\
     final_state h s = er_after r /\
     (valid_loss r == 2 # 10)%Q /\
     fs (er_after r) !! best_path = Some (FCheckpoint (record_of r)) /\
     (ck_best_loss (record_of r) == 2 # 10)%Q).
Proof.
  split.
  - intros b0 i r h Hi improved.
    destruct (epoch_files tl vl tlog vlog n epochs b0 s i r Hi) as (F & Hb & _ & Hc & H1 & H2).
    split; [exact F|]. split; [|auto].
    unfold record_of, epoch_record. now rewrite Hb.
  - apply best_of_four.
Qed.

(** ** The default best loss *)

Lemma script_history_fresh args s :
  a_resume args = "" ->
  script_history args s =
  history (train_dataloader (a_data args) (a_data_set args) (a_batch_size args))
          (val_dataloader (a_data args) (a_data_set args))
          (Logger_new (train_log_dir (a_run args)) (a_print_freq args))
          (Logger_new (val_log_dir (a_run args)) (a_print_freq args))
          (a_epochs args) (range 0 (a_epochs args)) 999
          (fresh_state (a_lr args) (a_momentum args) s).
Proof.
  intros H. unfold script_history, main_history. rewrite H, main_setup_fresh. reflexivity.
Qed.

Lemma script_fs_fresh args s :
  a_resume args = "" ->
  fs (snd (script args s)) =
  fs (final_state (script_history args s) (fresh_state (a_lr args) (a_momentum args) s)).
Proof.
  intros H. rewrite script_history_fresh by assumption.
  unfold script. rewrite main_unfold, H, main_setup_fresh. cbn [fst snd].
  apply main_loop_fs.
Qed.

Lemma chain_best_unchanged tl vl n b s es h :
  chain tl vl n b s es h ->
  Forall (fun r => copied_to_best r = false) h ->
  fs (final_state h s) !! best_path = fs s !! best_path.
Proof.
  induction 1 as [|b s e es r h He Hb Hs P C IH]; intros HF; [reflexivity|].
  apply Forall_cons in HF as [Hr HF]. rewrite final_state_cons, (IH HF).
  destruct (epoch_post_files _ _ _ _ _ _ _ _ _ P) as [_ F].
  pose proof (epoch_post_copied _ _ _ _ _ _ _ _ _ P) as Hc.
  rewrite <- Hs in Hc. fold (epoch_calls r) in Hc. fold (copied_to_best r) in Hc.
  rewrite Hr in Hc. now rewrite F, <- Hc.
Qed.

(** C9.  A run that does not resume compares the validation loss with 999
    in its first epoch: the checkpoint of an epoch is copied to the "best"
    location only if the epoch's validation loss is strictly below 999, and
    the first epoch copies exactly in that case.  When every epoch's
    validation loss is at least 999 no epoch copies, and the "best" location
    is after the run what it was before: no "best" artifact is produced. *)
Theorem best_loss_seeded_with_999 (args : Args) (s : State) :
  a_resume args = "" ->
  let h := script_history args s in
  (forall i r, h !! i = Some r -> copied_to_best r = true -> (valid_loss r < 999)%Q) /\
  (forall r, h !! 0%nat = Some r ->
     er_best_before r = 999%Q /\
     (copied_to_best r = true <-> (valid_loss r < 999)%Q)) /\
  (Forall (fun r => (999 <= valid_loss r)%Q) h ->
     Forall (fun r => copied_to_best r = false) h /\
     fs (snd (script args s)) !! best_path = fs s !! best_path).
Proof.
  intros Hr h. pose proof (script_history_fresh args s Hr) as Hh. fold h in Hh.
  assert (Hcopy : forall i r, h !! i = Some r -> copied_to_best r = true ->
                              (valid_loss r < 999)%Q).
  { intros i r Hi Hc. rewrite Hh in Hi.
    destruct (epoch_files _ _ _ _ _ _ _ _ _ _ Hi) as (_ & _ & _ & Hc' & _).
    now apply Hc' in Hc as [Hc _]. }
  split; [exact Hcopy|]. split.
  - intros r Hi. rewrite Hh in Hi.
    pose proof (history_chain
      (train_dataloader (a_data args) (a_data_set args) (a_batch_size args))
      (val_dataloader (a_data args) (a_data_set args))
      (Logger_new (train_log_dir (a_run args)) (a_print_freq args))
      (Logger_new (val_log_dir (a_run args)) (a_print_freq args))
      (a_epochs args) (range 0 (a_epochs args)) 999
      (fresh_state (a_lr args) (a_momentum args) s)) as C.
    destruct (chain_first _ _ _ _ _ _ _ _ C Hi) as [_ Hb]. split; [exact Hb|].
    destruct (epoch_files _ _ _ _ _ _ _ _ _ _ Hi) as (_ & _ & _ & Hc' & _).
    rewrite Hc'. cbn [take]. split; [tauto|]. intros; split; [assumption|constructor].
  - intros HF.
    assert (HN : Forall (fun r => copied_to_best r = false) h).
    { apply Forall_lookup_2. intros i r Hi.
      destruct (copied_to_best r) eqn:E; [|reflexivity].
      exfalso. apply (Qlt_not_le _ _ (Hcopy i r Hi E)).
      exact (Forall_lookup_1 _ _ _ _ HF Hi). }
    split; [exact HN|]. rewrite script_fs_fresh by assumption. fold h.
    rewrite Hh in *.
    now rewrite (chain_best_unchanged _ _ _ _ _ _ _ (history_chain _ _ _ _ _ _ _ _) HN).
Qed.

(** ** The standard output is only written *)

















(** ** Resuming *)

Lemma range_lookup start n i e : range start n !! i = Some e -> e = start + Z.of_nat i.
Proof.
  unfold range. rewrite list_lookup_fmap.
  destruct (seq 0 (Z.to_nat (n - start)) !! i) as [j|] eqn:E; [|discriminate].
  apply lookup_seq in E as [-> _]. cbn. now intros [= <-].
Qed.


Lemma main_setup_schedule args learning_rate mom resume s start s1 :
  main_setup args learning_rate mom resume s = (Ok start, s1) ->
  lr_scheduler s1 = fresh_schedule learning_rate.
Proof.
  destruct (decide (resume = "")) as [->|Hr].
  - rewrite main_setup_fresh. now intros [= _ <-].
  - destruct (fs s !! resume) as [[c|]|] eqn:Hf.
    + rewrite (main_setup_resume _ _ _ _ c) by assumption. now intros [= _ <-].
    + unfold main_setup. rewrite run_bind, main_init_run.
      unfold main_resume. rewrite bool_decide_eq_false_2 by assumption.
      unfold isfile, torch_load. mrun. unfold fresh_state. state_simpl. rewrite Hf.
      rewrite bool_decide_eq_true_2 by eauto. state_simpl. rewrite Hf. discriminate.
    + destruct args as [a|].
      * rewrite main_setup_missing by assumption. now intros [= _ <-].
      * rewrite main_setup_unbound by assumption. discriminate.
Qed.



(** ** The learning-rate schedule *)

Lemma chain_schedule tl vl n b s es h i r :
  chain tl vl n b s es h ->
  h !! i = Some r ->
  lr_scheduler (er_after r) =
    StepLR_set_epoch (last_epoch (lr_scheduler s) + Z.of_nat i + 1) (lr_scheduler s) /\
  lr (optimizer (er_after r)) = get_lr (lr_scheduler (er_after r)).
Proof.
  intros C. revert i. induction C as [|b s e es r0 h He Hb Hs P C IH]; intros i Hi.
  - discriminate.
  - destruct P as (pt & pv & _ & _ & _ & _ & _ & _ & _ & S & L & _).
    destruct i as [|i]; cbn in Hi.
    + inversion Hi; subst. split; [|exact L]. rewrite S. f_equal. cbn. lia.
    + destruct (IH _ Hi) as [IH1 IH2]. split; [|exact IH2].
      rewrite IH1, S. unfold StepLR_set_epoch. cbn. f_equal. lia.
Qed.

Lemma epoch_post_calls tl vl n e best s best' vm s' :
  epoch_post tl vl n e best s best' vm s' ->
  exists pt rest,
    length pt = dl_len tl /\
    drop (length (calls s)) (calls s') =
      Ev_scheduler_step ::
        flat_map (train_events (training (model s))) (combine (pass_batches tl (passes s)) pt)
        ++ rest /\
    count_event is_scheduler_step (drop (length (calls s)) (calls s')) = 1%nat /\
    count_event is_model_eval (drop (length (calls s)) (calls s')) = 1%nat.
Proof.
  intros (pt & pv & Lt & _ & _ & _ & C & _). cbv zeta in C.
  exists pt. eexists. split; [exact Lt|]. rewrite C, drop_app_length.
  split; [rewrite <- app_comm_cons; reflexivity|].
  unfold count_event. rewrite !List.filter_app, !length_app. cbn [List.filter is_scheduler_step is_model_eval length].
  fold (count_event is_scheduler_step
          (flat_map (train_events (training (model s))) (combine (pass_batches tl (passes s)) pt))).
  fold (count_event is_scheduler_step
          (flat_map (valid_events false) (combine (pass_batches vl (S (passes s))) pv))).
  fold (count_event is_model_eval
          (flat_map (train_events (training (model s))) (combine (pass_batches tl (passes s)) pt))).
  fold (count_event is_model_eval
          (flat_map (valid_events false) (combine (pass_batches vl (S (passes s))) pv))).
  rewrite !count_events_none by reflexivity.
  destruct (py_lt (m_loss vm) best); split; reflexivity.
Qed.

Lemma get_lr_fresh (r : Q) (e : Z) :
  get_lr (StepLR_set_epoch e (fresh_schedule r)) = (r * (1 # 10) ^ (e / 15))%Q.
Proof. reflexivity. Qed.

(** C5.  The schedule [main] builds decays by steps of 15 epochs with
    factor 0.1: at epoch [e] of the schedule the rate is
    [initial_rate * 0.1 ** (e // 15)], so it is the initial rate at epoch 0
    and [initial_rate * 0.1] at epoch 15.  A training pass whose
    [print_freq] is not zero advances the schedule by exactly one epoch, as
    its first framework call, and writes the rate into the optimizer;
    a validation pass leaves the schedule alone.  In a run that does not
    resume, epoch [i] of the loop makes exactly one schedule step and
    trains at the rate of schedule epoch [i + 1]: the initial rate in
    epoch 0 and [initial_rate * 0.1] in epoch 15. *)
Theorem lr_schedule_step_decay :
  (forall r : Q,
     (forall e, get_lr (StepLR_set_epoch e (fresh_schedule r)) = (r * (1 # 10) ^ (e / 15))%Q) /\
     (get_lr (fresh_schedule r) == r)%Q /\
     (get_lr (StepLR_set_epoch 15 (fresh_schedule r)) == r * (1 # 10))%Q) /\
  (forall (dl : DataLoader Tensor) (logger : Logger) (e : Z) (s : State),
     print_freq logger <> 0 ->
     let s' := snd (train dl logger e s) in
     (exists rest,
        calls s' = calls s ++ Ev_scheduler_step :: rest /\
        count_event is_scheduler_step rest = 0%nat) /\
     lr_scheduler s' = StepLR_set_epoch (last_epoch (lr_scheduler s) + 1) (lr_scheduler s) /\
     lr (optimizer s') = get_lr (lr_scheduler s')) /\
  (forall (dl : DataLoader Tensor) (logger : Logger) (e : Z) (s : State),
     lr_scheduler (snd (validation dl logger e s)) = lr_scheduler s /\
     lr (optimizer (snd (validation dl logger e s))) = lr (optimizer s)) /\
  (forall (args : Args) (s : State) (i : nat) (r : EpochRun),
     a_resume args = "" ->
     script_history args s !! i = Some r ->
     er_epoch r = Z.of_nat i /\
     count_event is_scheduler_step (epoch_calls r) = 1%nat /\
     lr_scheduler (er_after r) =
       StepLR_set_epoch (Z.of_nat i + 1) (fresh_schedule (a_lr args)) /\
     lr (optimizer (er_after r)) = (a_lr args * (1 # 10) ^ ((Z.of_nat i + 1) / 15))%Q /\
     (i = 0%nat -> (lr (optimizer (er_after r)) == a_lr args)%Q) /\
     (i = 15%nat -> (lr (optimizer (er_after r)) == a_lr args * (1 # 10))%Q)).
Proof.
  split; [|split; [|split]].
  - intros r. split; [reflexivity|]. split.
    + change (get_lr (fresh_schedule r)) with (r * 1)%Q. ring.
    + change (get_lr (StepLR_set_epoch 15 (fresh_schedule r))) with (r * (1 # 10))%Q.
      reflexivity.
  - intros dl logger e s Hf s'. subst s'.
    destruct (train_frame dl logger e s) as (_ & _ & H). destruct (H Hf) as [H1 H2].
    split; [|auto].
    destruct (train_calls dl logger e s) as (ps & _ & C).
    rewrite (proj2 (Z.eqb_neq _ _) Hf) in C. eexists. split; [exact C|].
    now apply count_events_none.
  - intros dl logger e s. destruct (validation_frame dl logger e s) as (_ & H & O & _).
    split; [exact H|now rewrite O].
  - intros args s i r Hr Hi. rewrite script_history_fresh in Hi by assumption.
    pose proof (history_chain _ _ _ _ _ _ _ _ : chain _ _ _ _ _ _
                  (history (train_dataloader (a_data args) (a_data_set args) (a_batch_size args))
                     (val_dataloader (a_data args) (a_data_set args))
                     (Logger_new (train_log_dir (a_run args)) (a_print_freq args))
                     (Logger_new (val_log_dir (a_run args)) (a_print_freq args))
                     (a_epochs args) (range 0 (a_epochs args)) 999
                     (fresh_state (a_lr args) (a_momentum args) s))) as C.
    destruct (chain_lookup _ _ _ _ _ _ _ _ _ C Hi) as [Hl P].
    destruct (chain_schedule _ _ _ _ _ _ _ _ _ C Hi) as [S L].
    apply range_lookup in Hl.
    destruct (epoch_post_calls _ _ _ _ _ _ _ _ _ P) as (pt & rest & _ & _ & Hc & _).
    split; [lia|]. split; [exact Hc|].
    assert (S' : lr_scheduler (er_after r) =
                 StepLR_set_epoch (Z.of_nat i + 1) (fresh_schedule (a_lr args))).
    { rewrite S. unfold StepLR_set_epoch, fresh_state, fresh_schedule. cbn. f_equal. }
    split; [exact S'|].
    assert (L' : lr (optimizer (er_after r)) =
                 (a_lr args * (1 # 10) ^ ((Z.of_nat i + 1) / 15))%Q).
    { rewrite L, S'. reflexivity. }
    split; [exact L'|]. split; intros ->; rewrite L'.
    + change ((1 # 10) ^ ((Z.of_nat 0 + 1) / 15))%Q with 1%Q. ring.
    + change ((1 # 10) ^ ((Z.of_nat 15 + 1) / 15))%Q with (1 # 10)%Q. reflexivity.
Qed.

(** ** Evaluation mode *)

(** What a validation pass does and does not do: its framework calls are
    [model.eval()] and, per batch, one forward pass in evaluation mode and
    one criterion; no gradient reset, backward pass or optimizer step.  It
    leaves the optimizer, the gradients, the schedule and the files as they
    were, and the weights too if a forward pass in evaluation mode does not
    write them; the model is in evaluation mode afterwards. *)
Lemma validation_pass_effects (dl : DataLoader Tensor) (logger : Logger) (e : Z) (s : State) :
  let s' := snd (validation dl logger e s) in
  (exists ps,
     length ps = batches_done dl (print_freq logger) /\
     let new := if Z.eqb (print_freq logger) 0 then []
                else Ev_model_eval ::
                     flat_map (valid_events false) (combine (pass_batches dl (passes s)) ps) in
     calls s' = calls s ++ new /\
     count_event is_zero_grad new = 0%nat /\
     count_event is_backward new = 0%nat /\
     count_event is_optimizer_step new = 0%nat) /\
  optimizer s' = optimizer s /\
  grads (model s') = grads (model s) /\
  lr_scheduler s' = lr_scheduler s /\
  fs s' = fs s /\
  (print_freq logger <> 0 -> training (model s') = false) /\
  ((forall sd x, fst (forward sd false x) = sd) ->
   state_dict (model s') = state_dict (model s)).
Proof.
  intros s'. subst s'.
  destruct (validation_frame dl logger e s) as (F & S & O & G & M & D).
  split; [|auto 10].
  destruct (validation_calls dl logger e s) as (ps & L & C). exists ps.
  split; [exact L|]. cbv zeta. split; [exact C|].
  destruct (Z.eqb (print_freq logger) 0); [repeat split|].
  repeat split; apply (count_events_none _ (valid_events false)); reflexivity.
Qed.

Lemma chain_mode tl vl n b s es h i r :
  chain tl vl n b s es h ->
  h !! i = Some r ->
  training (model (er_after r)) = false /\
  (i <> 0%nat -> training (model (er_before r)) = false).
Proof.
  intros C. revert i. induction C as [|b s e es r0 h He Hb Hs P C IH]; intros i Hi.
  - discriminate.
  - assert (M : training (model (er_after r0)) = false).
    { now destruct P as (pt & pv & _ & _ & _ & _ & _ & _ & M & _). }
    destruct i as [|i]; cbn in Hi.
    + inversion Hi; subst. split; [exact M|]. intros H. now contradiction H.
    + destruct (IH _ Hi) as [IH1 IH2]. split; [exact IH1|]. intros _.
      destruct i as [|i].
      * destruct (chain_first _ _ _ _ _ _ _ _ C Hi) as [-> _]. exact M.
      * apply IH2. discriminate.
Qed.

(** C6, what the code does.  Every epoch of a run calls [model.eval()]
    once, in its validation pass, and ends with the model in evaluation
    mode; nothing puts the model back in training mode, so every epoch but
    the first starts in evaluation mode and makes all the forward passes of
    its training pass in evaluation mode. *)
Theorem training_mode_not_restored (tl vl : DataLoader Tensor) (tlog vlog : Logger)
    (n : Z) (epochs : list Z) (b0 : Q) (s : State) (i : nat) (r : EpochRun) :
  history tl vl tlog vlog n epochs b0 s !! S i = Some r ->
  training (model (er_before r)) = false /\
  training (model (er_after r)) = false /\
  count_event is_model_eval (epoch_calls r) = 1%nat /\
  exists pt rest,
    length pt = dl_len tl /\
    epoch_calls r =
      Ev_scheduler_step ::
        flat_map (train_events false) (combine (pass_batches tl (passes (er_before r))) pt)
        ++ rest.
Proof.
  intros Hi. pose proof (history_chain tl vl tlog vlog n epochs b0 s) as C.
  destruct (chain_mode _ _ _ _ _ _ _ _ _ C Hi) as [M1 M2].
  destruct (chain_lookup _ _ _ _ _ _ _ _ _ C Hi) as [_ P].
  destruct (epoch_post_calls _ _ _ _ _ _ _ _ _ P) as (pt & rest & L & E & _ & Hc).
  rewrite M2 in E by discriminate.
  split; [now apply M2|]. split; [exact M1|]. split; [exact Hc|].
  exists pt, rest. auto.
Qed.

(** ** What a checkpoint holds *)


(** * Further properties of [train.py] *)

(** ** When a pass returns *)



(** ** The files a run touches *)

Lemma main_setup_other args learning_rate mom resume s :
  resume <> "" ->
  fs s !! resume = Some FOther ->
  main_setup args learning_rate mom resume s =
    (Raise UnpicklingError,
     with_calls (calls s ++ [Ev_load resume])
       (with_stdout (stdout s ++ [Out_loading resume]) (fresh_state learning_rate mom s))).
Proof.
  intros Hr Hf. unfold main_setup. rewrite run_bind, main_init_run.
  unfold main_resume. rewrite bool_decide_eq_false_2 by assumption.
  unfold isfile, torch_load. mrun. unfold fresh_state. state_simpl. rewrite Hf.
  rewrite bool_decide_eq_true_2 by eauto. state_simpl. rewrite Hf. reflexivity.
Qed.

Lemma main_setup_fs args learning_rate mom resume s :
  fs (snd (main_setup args learning_rate mom resume s)) = fs s.
Proof.
  destruct (decide (resume = "")) as [->|Hr].
  - now rewrite main_setup_fresh.
  - destruct (fs s !! resume) as [[c|]|] eqn:Hf.
    + now rewrite (main_setup_resume _ _ _ _ c).
    + now rewrite main_setup_other.
    + destruct args as [a|].
      * now rewrite main_setup_missing.
      * now rewrite main_setup_unbound.
Qed.

Lemma chain_other_files tl vl n b s es h path :
  chain tl vl n b s es h ->
  path <> checkpoint_path ->
  path <> best_path ->
  fs (final_state h s) !! path = fs s !! path.
Proof.
  intros C H1 H2. induction C as [|b s e es r h He Hb Hs P C IH]; [reflexivity|].
  rewrite final_state_cons, IH. eapply epoch_post_other_files; eassumption.
Qed.

Lemma chain_keeps_files tl vl n b s es h path :
  chain tl vl n b s es h ->
  is_Some (fs s !! path) ->
  is_Some (fs (final_state h s) !! path).
Proof.
  intros C. induction C as [|b s e es r h He Hb Hs P C IH]; intros H; [exact H|].
  rewrite final_state_cons. apply IH.
  destruct (decide (path = checkpoint_path)) as [->|H1].
  { destruct (epoch_post_files _ _ _ _ _ _ _ _ _ P) as [F _]. rewrite F. eauto. }
  destruct (decide (path = best_path)) as [->|H2].
  { destruct (epoch_post_files _ _ _ _ _ _ _ _ _ P) as [_ F]. rewrite F.
    destruct (py_lt _ _); eauto. }
  now rewrite (epoch_post_other_files _ _ _ _ _ _ _ _ _ path P).
Qed.

(** X2.  Whatever its arguments and its outcome, a call of [main] writes,
    with [torch.save] and [shutil.copyfile], to the latest checkpoint and to
    the "best" checkpoint only: every other file is left as it was, and no
    file is removed.  (The summaries are not files of this file system; they
    go to the log directories.) *)
Theorem main_saves_to_two_paths_only (args : option Args) (data_path : string)
    (batch_size n : Z) (learning_rate mom : Q) (freq run : Z) (resume data_set : string)
    (s : State) (path : string) :
  let s' := snd (main args data_path batch_size n learning_rate mom freq run
                      resume data_set s) in
  (path = checkpoint_path \/ path = best_path \/ fs s' !! path = fs s !! path) /\
  (fs s !! path = None \/ is_Some (fs s' !! path)).
Proof.
  cbv zeta. rewrite main_unfold.
  pose proof (main_setup_fs args learning_rate mom resume s) as Hs.
  destruct (main_setup args learning_rate mom resume s) as [[start|x] s1]; cbn [snd] in *.
  - rewrite main_loop_fs, <- Hs.
    match goal with
    | |- context [history ?a1 ?a2 ?a3 ?a4 ?a5 ?a6 ?a7 ?a8] =>
        pose proof (history_chain a1 a2 a3 a4 a5 a6 a7 a8) as C
    end.
    split.
    + destruct (decide (path = checkpoint_path)) as [|H1]; [auto|].
      destruct (decide (path = best_path)) as [|H2]; [auto|].
      right; right. eapply chain_other_files; eassumption.
    + destruct (fs s1 !! path) eqn:E; [right|auto].
      eapply chain_keeps_files; [exact C|]. rewrite E. eauto.
  - rewrite Hs. split; [auto|]. destruct (fs s !! path); eauto.
Qed.

(** ** The running best loss *)

Lemma py_min_le_l a b : (py_min a b <= a)%Q.
Proof.
  unfold py_min. destruct (py_lt b a) eqn:E; [|apply Qle_refl].
  apply py_lt_true in E. now apply Qlt_le_weak.
Qed.

Lemma py_min_le_r a b : (py_min a b <= b)%Q.
Proof.
  unfold py_min. destruct (py_lt b a) eqn:E; [apply Qle_refl|].
  now apply py_lt_false in E.
Qed.

Lemma py_min_cases a b : py_min a b = a \/ py_min a b = b.
Proof. unfold py_min. destruct (py_lt b a); auto. Qed.

Lemma running_best_spec vs : forall b0,
  let m := fold_left (fun b v' => py_min v' b) vs b0 in
  (m <= b0)%Q /\ Forall (fun v => (m <= v)%Q) vs /\ (m = b0 \/ In m vs).
Proof.
  induction vs as [|v vs IH]; intros b0; cbn [fold_left].
  - split; [apply Qle_refl|]. split; [constructor|auto].
  - destruct (IH (py_min v b0)) as (H1 & H2 & H3). cbv zeta in *.
    split; [eapply Qle_trans; [exact H1|apply py_min_le_r]|].
    split.
    + constructor; [eapply Qle_trans; [exact H1|apply py_min_le_l]|exact H2].
    + destruct H3 as [H3|H3]; [|right; now right].
      rewrite H3. destruct (py_min_cases v b0) as [->| ->]; [right; now left|now left].
Qed.

(** X3.  After every epoch of a run, [best_loss] (the value stored in the
    checkpoint written by that epoch) is the smallest of the value the loop
    started from and the validation losses measured so far: it is no greater
    than any of them and is one of them.  It never goes up from one epoch
    to the next. *)
Theorem best_loss_is_running_minimum (tl vl : DataLoader Tensor) (tlog vlog : Logger)
    (n : Z) (epochs : list Z) (b0 : Q) (s : State) (i : nat) (r : EpochRun) :
  let h := history tl vl tlog vlog n epochs b0 s in
  h !! i = Some r ->
  ck_best_loss (record_of r) = er_best r /\
  (er_best r <= b0)%Q /\
  Forall (fun r' => (er_best r <= valid_loss r')%Q) (take (S i) h) /\
  (er_best r = b0 \/ exists r', In r' (take (S i) h) /\ er_best r = valid_loss r') /\
  (er_best r <= er_best_before r)%Q.
Proof.
  intros h Hi.
  pose proof (history_chain tl vl tlog vlog n epochs b0 s) as C. fold h in C.
  pose proof (chain_best_before _ _ _ _ _ _ _ _ _ C Hi) as Hb.
  destruct (epoch_files tl vl tlog vlog n epochs b0 s i r Hi) as (_ & He & _).
  assert (Hm : er_best r =
               fold_left (fun b v' => py_min v' b) (map valid_loss (take (S i) h)) b0).
  { rewrite (take_S_r _ _ _ Hi), map_app, fold_left_app. cbn [map fold_left].
    now rewrite <- Hb. }
  destruct (running_best_spec (map valid_loss (take (S i) h)) b0) as (H1 & H2 & H3).
  cbv zeta in *. rewrite <- Hm in *.
  split; [reflexivity|]. split; [exact H1|]. split; [apply List.Forall_forall; intros r' Hr'; rewrite List.Forall_forall in H2; apply H2; now apply in_map|].
  split.
  - destruct H3 as [H3|H3]; [now left|right].
    apply in_map_iff in H3 as (r' & E & Hin). exists r'. auto.
  - rewrite He. apply py_min_le_r.
Qed.

(** ** The epochs [main] runs *)


Lemma range_nil start n : n <= start -> range start n = [].
Proof. intros H. unfold range. now replace (Z.to_nat (n - start)) with 0%nat by lia. Qed.



(** X5.  When [num_epochs <= start_epoch] (as with [--epochs 0], or with a
    checkpoint saved at an epoch not below [--epochs]) the loop body never
    runs: [main] only prints "Training complete" after its set-up and
    returns normally, whatever [print_freq] is; nothing is trained and no
    file is written. *)
Theorem main_without_epochs (args : option Args) (data_path : string)
    (batch_size n : Z) (learning_rate mom : Q) (freq run : Z) (resume data_set : string)
    (s s1 : State) (best : Q) (start : Z) :
  main_setup args learning_rate mom resume s = (Ok (best, start), s1) ->
  n <= start ->
  main args data_path batch_size n learning_rate mom freq run resume data_set s =
    (Ok tt, with_stdout (stdout s1 ++ [Out_complete]) s1) /\
  main_history args data_path batch_size n learning_rate mom freq run resume data_set s = [] /\
  fs s1 = fs s.
Proof.
  intros E Hn. unfold main_history. rewrite main_unfold, E. cbn [fst snd].
  unfold main_loop. rewrite (range_nil _ _ Hn). split; [reflexivity|]. split; [reflexivity|].
  pose proof (main_setup_fs args learning_rate mom resume s) as H. now rewrite E in H.
Qed.

(** ** Resuming and the command line *)

(** X6.  When a run resumes from a checkpoint, [--momentum] has no effect:
    the optimizer takes its momentum (and the rest of its state) from the
    checkpoint, and two calls of [main] that differ in the momentum argument
    only return the same result and end in the same state. *)
Theorem momentum_ignored_on_resume (args : option Args) (data_path : string)
    (batch_size n : Z) (learning_rate mom mom' : Q) (freq run : Z) (resume data_set : string)
    (c : Checkpoint) (s : State) :
  resume <> "" ->
  fs s !! resume = Some (FCheckpoint c) ->
  main args data_path batch_size n learning_rate mom freq run resume data_set s =
  main args data_path batch_size n learning_rate mom' freq run resume data_set s.
Proof.
  intros Hr Hf. rewrite !main_unfold.
  rewrite (main_setup_resume args learning_rate mom resume c s Hr Hf).
  rewrite (main_setup_resume args learning_rate mom' resume c s Hr Hf).
  reflexivity.
Qed.

(** X7.  Line 66 reads the module-level name [args], not the parameter
    [resume]: when [main] is called where that name is not bound (from
    another module), with a resume path at which there is no file, it raises
    [NameError] right after building the model, the optimizer and the
    schedule; no epoch runs, and no file is read or written. *)
Theorem main_unbound_args_raises (data_path : string) (batch_size n : Z)
    (learning_rate mom : Q) (freq run : Z) (resume data_set : string) (s : State) :
  resume <> "" ->
  fs s !! resume = None ->
  main None data_path batch_size n learning_rate mom freq run resume data_set s =
    (Raise NameError, fresh_state learning_rate mom s) /\
  main_history None data_path batch_size n learning_rate mom freq run resume data_set s = [] /\
  fs (fresh_state learning_rate mom s) = fs s /\
  calls (fresh_state learning_rate mom s) = calls s /\
  stdout (fresh_state learning_rate mom s) = stdout s.
Proof.
  intros Hr Hf. unfold main_history.
  rewrite main_unfold, (main_setup_unbound learning_rate mom resume s Hr Hf).
  repeat split.
Qed.

(** ** Histogram tags *)

Lemma chars_replace_dot s :
  chars (replace_dot s) =
  map (fun c => if Ascii.eqb c "."%char then "/"%char else c) (chars s).
Proof. induction s as [|c s IH]; cbn; [reflexivity|]. now rewrite IH. Qed.

(** X8.  [tag.replace('.', '/')] keeps the length of the tag and every
    character other than the dot in place, leaves no dot behind, and
    returns a tag without dots unchanged. *)
Theorem replace_dot_spec (s : string) :
  String.length (replace_dot s) = String.length s /\
  ~ In "."%char (chars (replace_dot s)) /\
  (forall i c, chars s !! i = Some c -> c <> "."%char -> chars (replace_dot s) !! i = Some c) /\
  (forall i, chars s !! i = Some "."%char -> chars (replace_dot s) !! i = Some "/"%char) /\
  (~ In "."%char (chars s) -> replace_dot s = s).
Proof.
  split; [|split; [|split; [|split]]].
  - induction s as [|c s IH]; cbn; [reflexivity|]. now rewrite IH.
  - rewrite chars_replace_dot. intros H. apply in_map_iff in H as (c & E & _).
    destruct (Ascii.eqb c "."%char) eqn:Q; [discriminate E|].
    apply Ascii.eqb_neq in Q. congruence.
  - intros i c Hi Hc. rewrite chars_replace_dot, list_lookup_fmap, Hi. cbn.
    destruct (Ascii.eqb c "."%char) eqn:Q; [|reflexivity].
    apply Ascii.eqb_eq in Q. contradiction.
  - intros i Hi. rewrite chars_replace_dot, list_lookup_fmap, Hi. reflexivity.
  - induction s as [|c s IH]; cbn; [reflexivity|]. intros H.
    destruct (Ascii.eqb c "."%char) eqn:Q.
    { apply Ascii.eqb_eq in Q. exfalso. apply H. now left. }
    rewrite IH; [reflexivity|]. intros Hin. apply H. now right.
Qed.

(** ** A pass that fails after its first batch *)





(** ** A run whose validation loader is too short *)




(** ** [save_checkpoint] *)

(** X11.  [save_checkpoint] with a file name other than the "best"
    location: once [torch.save] has written the file, the copy cannot fail
    for lack of its source, so the call returns normally.  Afterwards the
    record is at [filename], and also at the "best" location when [is_best]
    holds; the "best" location is untouched otherwise, and so is every other
    file, the model, the optimizer and the output.  Paths stand for files
    here, and writing a file always succeeds. *)
Theorem save_checkpoint_writes (state : Checkpoint) (is_best : bool) (filename : string)
    (s : State) :
  filename <> best_path ->
  exists s',
    save_checkpoint state is_best filename s = (Ok tt, s') /\
    fs s' !! filename = Some (FCheckpoint state) /\
    fs s' !! best_path =
      (if is_best then Some (FCheckpoint state) else fs s !! best_path) /\
    (forall path, path <> filename -> path <> best_path -> fs s' !! path = fs s !! path) /\
    model s' = model s /\
    optimizer s' = optimizer s /\
    lr_scheduler s' = lr_scheduler s /\
    stdout s' = stdout s /\
    tensorboard s' = tensorboard s.
Proof.
  intros Hne. unfold save_checkpoint, torch_save, copyfile. mrun. destruct is_best.
  - state_simpl. rewrite lookup_insert_eq. state_simpl.
    eexists. split; [reflexivity|]. state_simpl.
    rewrite lookup_insert_eq, lookup_insert_ne, lookup_insert_eq by congruence.
    repeat split. intros path H1 H2. now rewrite !lookup_insert_ne by congruence.
  - eexists. split; [reflexivity|]. state_simpl.
    rewrite lookup_insert_eq, lookup_insert_ne by congruence.
    repeat split. intros path H1 H2. now rewrite lookup_insert_ne by congruence.
Qed.

(** ** The framework calls of a complete run *)




(** ** The "best" checkpoint at the end of a run *)

Lemma chain_best_file tl vl n b s es h :
  chain tl vl n b s es h ->
  (Forall (fun r => ~ (valid_loss r < b)%Q) h /\
   fs (final_state h s) !! best_path = fs s !! best_path /\
   (final_best h b == b)%Q) \/
  (exists i r,
     h !! i = Some r /\
     fs (final_state h s) !! best_path = Some (FCheckpoint (record_of r)) /\
     (valid_loss r < b)%Q /\
     (final_best h b == valid_loss r)%Q /\
     Forall (fun r' => (valid_loss r <= valid_loss r')%Q) h /\
     Forall (fun r' => (valid_loss r < valid_loss r')%Q) (take i h)).
Proof.
  induction 1 as [|b s e es r0 h He Hb Hs P C IH].
  { left. split; [constructor|]. split; reflexivity. }
  rewrite final_state_cons, final_best_cons.
  destruct (epoch_post_files _ _ _ _ _ _ _ _ _ P) as [_ Fb].
  assert (Hm : er_best r0 = py_min (valid_loss r0) b).
  { destruct P as (pt & pv & _ & _ & _ & Hm & _). exact Hm. }
  fold (valid_loss r0) in Fb.
  destruct (py_lt (valid_loss r0) b) eqn:Hlt.
  - apply py_lt_true in Hlt.
    assert (Hb' : er_best r0 = valid_loss r0) by (rewrite Hm; now apply py_min_lt).
    rewrite Hb' in IH.
    destruct IH as [(A1 & A2 & A3)|(i & r & A1 & A2 & A3 & A4 & A5 & A6)].
    + right. exists 0%nat, r0. split; [reflexivity|].
      split; [rewrite A2, Fb; unfold record_of; now rewrite He|].
      split; [exact Hlt|]. split; [now rewrite Hb'|].
      split; [|constructor].
      constructor; [apply Qle_refl|].
      eapply Forall_impl; [exact A1|]. intros r' Hr'. cbv beta in Hr'.
      now apply Qnot_lt_le.
    + right. exists (S i), r.
      split; [exact A1|]. split; [exact A2|].
      split; [eapply Qlt_trans; eassumption|]. split; [now rewrite Hb'|].
      split; [constructor; [now apply Qlt_le_weak|exact A5]|].
      cbn [take]. constructor; assumption.
  - apply py_lt_false in Hlt.
    assert (Hb' : (er_best r0 == b)%Q) by (rewrite Hm; now apply py_min_ge).
    destruct IH as [(A1 & A2 & A3)|(i & r & A1 & A2 & A3 & A4 & A5 & A6)].
    + left. split.
      * constructor; [now apply Qle_not_lt|].
        eapply Forall_impl; [exact A1|]. intros r' Hr'. cbv beta in Hr'.
        intros Hc. apply Hr'. now rewrite Hb'.
      * split; [now rewrite A2, Fb|]. now rewrite A3.
    + right. exists (S i), r. rewrite Hb' in A3.
      assert (Hr : (valid_loss r < valid_loss r0)%Q) by (eapply Qlt_le_trans; eassumption).
      split; [exact A1|]. split; [exact A2|]. split; [exact A3|].
      split; [exact A4|].
      split; [constructor; [now apply Qlt_le_weak|exact A5]|].
      cbn [take]. constructor; assumption.
Qed.

(** X13.  At the end of the completed epochs of a run, either no epoch had
    a validation loss below the starting [best_loss], and then the "best"
    location is as it was before the run, or the "best" location holds the
    checkpoint of one of the epochs: the first one to reach the lowest
    validation loss of the run, which is below the starting [best_loss],
    equals the final value of [best_loss] and is the [best_loss] recorded in
    that checkpoint. *)
Theorem best_file_holds_lowest_loss (tl vl : DataLoader Tensor) (tlog vlog : Logger)
    (n : Z) (epochs : list Z) (b0 : Q) (s : State) :
  let h := history tl vl tlog vlog n epochs b0 s in
  (Forall (fun r => ~ (valid_loss r < b0)%Q) h /\
   fs (final_state h s) !! best_path = fs s !! best_path /\
   (final_best h b0 == b0)%Q) \/
  (exists i r,
     h !! i = Some r /\
     fs (final_state h s) !! best_path = Some (FCheckpoint (record_of r)) /\
     ck_epoch (record_of r) = er_epoch r /\
     ck_best_loss (record_of r) = valid_loss r /\
     (valid_loss r < b0)%Q /\
     (final_best h b0 == valid_loss r)%Q /\
     Forall (fun r' => (valid_loss r <= valid_loss r')%Q) h /\
     Forall (fun r' => (valid_loss r < valid_loss r')%Q) (take i h)).
Proof.
  intros h. pose proof (history_chain tl vl tlog vlog n epochs b0 s) as C. fold h in C.
  destruct (chain_best_file _ _ _ _ _ _ _ C) as [H|(i & r & A1 & A2 & A3 & A4 & A5 & A6)];
    [now left|right].
  exists i, r. split; [exact A1|]. split; [exact A2|]. split; [reflexivity|].
  split; [|auto].
  destruct (epoch_files tl vl tlog vlog n epochs b0 s i r A1) as (_ & He & Hi & _).
  cbn [record_of epoch_record ck_best_loss]. unfold record_of, epoch_record. cbn [ck_best_loss].
  rewrite He. apply py_min_lt. apply Hi. split; assumption.
Qed.

(** ** Where the summaries go *)

Lemma logs_ret {A} D (a : A) : logs_only D (mret a).
Proof. intros s. exists []. now rewrite app_nil_r. Qed.

Lemma logs_lift {A} D (r : result A) : logs_only D (lift r).
Proof. intros s. exists []. now rewrite app_nil_r. Qed.

Lemma logs_raise {A} D (e : exn) : logs_only D (raise e : M A).
Proof. intros s. exists []. now rewrite app_nil_r. Qed.

Lemma logs_gets {A} D (g : State -> A) : logs_only D (gets g).
Proof. intros s. exists []. now rewrite app_nil_r. Qed.

Lemma logs_modify D (f : State -> State) :
  (forall s, tensorboard (f s) = tensorboard s) -> logs_only D (modify f).
Proof. intros H s. exists []. cbn. now rewrite H, app_nil_r. Qed.

Lemma logs_log (D : string * summary -> Prop) logger x :
  D (log_dir logger, x) -> logs_only D (log_summary logger x).
Proof. intros H s. exists [(log_dir logger, x)]. split; [reflexivity|]. now constructor. Qed.

Lemma logs_bind {A B} D (c : M A) (f : A -> M B) :
  logs_only D c -> (forall a, logs_only D (f a)) -> logs_only D (c ≫= f).
Proof.
  intros Hc Hf s. rewrite run_bind. destruct (Hc s) as (t1 & E1 & F1).
  destruct (c s) as [[a|x] s1]; cbn [snd] in *.
  - destruct (Hf a s1) as (t2 & E2 & F2). exists (t1 ++ t2).
    rewrite E2, E1, app_assoc. split; [reflexivity|]. now apply Forall_app.
  - eauto.
Qed.

Lemma logs_if {A} D (b : bool) (c d : M A) :
  logs_only D c -> logs_only D d -> logs_only D (if b then c else d).
Proof. destruct b; auto. Qed.

Lemma logs_for_fold {A X} D (l : list A) (body : A -> X -> M X) :
  (forall a x, logs_only D (body a x)) -> forall x, logs_only D (for_fold l body x).
Proof.
  intros H. induction l as [|a l IH]; intros x; cbn [for_fold]; [apply logs_ret|].
  apply logs_bind; [apply H|apply IH].
Qed.

Lemma logs_weaken {A} (D D' : string * summary -> Prop) (c : M A) :
  (forall x, D x -> D' x) -> logs_only D c -> logs_only D' c.
Proof.
  intros H Hc s. destruct (Hc s) as (t & E & F). exists t. split; [exact E|].
  eapply Forall_impl; eassumption.
Qed.

Ltac logs_tac :=
  repeat (cbv zeta; lazymatch goal with
    | |- logs_only _ (mret _) => apply logs_ret
    | |- logs_only _ (lift _) => apply logs_lift
    | |- logs_only _ (raise _) => apply logs_raise
    | |- logs_only _ (gets _) => apply logs_gets
    | |- logs_only _ (print _) => apply logs_modify; intros ?; reflexivity
    | |- logs_only _ (call _) => apply logs_modify; intros ?; reflexivity
    | |- logs_only _ (modify _) => apply logs_modify; intros ?; reflexivity
    | |- logs_only _ (log_summary _ _) => apply logs_log; cbn; auto
    | |- logs_only _ (for_fold _ _ _) => apply logs_for_fold; intros ? ?
    | |- logs_only _ (for_each _ _) => apply logs_for_fold; intros ? ?
    | |- logs_only _ (_ ≫= _) => apply logs_bind; [|intros ?]
    | |- logs_only _ (match ?x with _ => _ end) => destruct x
    end).

Lemma logs_train dl logger e :
  logs_only (fun x => fst x = log_dir logger) (train dl logger e).
Proof.
  unfold train, train_batch, train_log, scheduler_step, iterate, optimizer_zero_grad,
    model_call, criterion_call, loss_backward, optimizer_step, scalar_summary,
    histo_summary, image_summary.
  logs_tac.
Qed.

Lemma logs_validation dl logger e :
  logs_only (fun x => fst x = log_dir logger /\ is_histo (snd x) = false)
            (validation dl logger e).
Proof.
  unfold validation, validation_batch, validation_log, model_eval, iterate,
    model_call, criterion_call, scalar_summary, image_summary.
  logs_tac.
Qed.

Lemma chars_app s1 s2 : chars (s1 ++ s2)%string = chars s1 ++ chars s2.
Proof.
  induction s1 as [|c s1 IH]; [reflexivity|].
  change (c :: chars (s1 ++ s2)%string = c :: (chars s1 ++ chars s2)). now rewrite IH.
Qed.

Lemma chars_inj s1 s2 : chars s1 = chars s2 -> s1 = s2.
Proof.
  revert s2. induction s1 as [|c s1 IH]; intros [|c2 s2] H; try discriminate; [reflexivity|].
  cbn in H. inversion H; subst. f_equal. now apply IH.
Qed.

Lemma log_dirs_differ run run' : train_log_dir run <> val_log_dir run'.
Proof.
  unfold train_log_dir, val_log_dir. intros H. apply (f_equal chars) in H.
  rewrite !chars_app in H.
  change (chars "/training") with (chars "/trainin" ++ ["g"%char]) in H.
  change (chars "/validation") with (chars "/validatio" ++ ["n"%char]) in H.
  rewrite !app_assoc in H. apply app_inj_tail in H as [_ H]. discriminate.
Qed.

Lemma log_dir_inj (suffix : string) (run run' : Z) :
  ("../logs/run_" ++ pretty run ++ suffix)%string =
  ("../logs/run_" ++ pretty run' ++ suffix)%string -> run = run'.
Proof.
  intros H. apply (f_equal chars) in H. rewrite !chars_app in H.
  apply app_inv_head, app_inv_tail, chars_inj in H.
  now apply (inj pretty) in H.
Qed.

(** X14.  Whatever its arguments and its outcome, [main] keeps the
    summaries written before it and adds summaries to two directories only:
    [../logs/run_<run>/training] and [../logs/run_<run>/validation], and no
    histogram to the second.  The two differ, and two runs with different
    [--run] numbers share no directory. *)
Theorem summaries_go_to_the_run_directories (args : option Args) (data_path : string)
    (batch_size n : Z) (learning_rate mom : Q) (freq run : Z) (resume data_set : string)
    (s : State) :
  (exists t,
     tensorboard (snd (main args data_path batch_size n learning_rate mom freq run
                            resume data_set s)) = tensorboard s ++ t /\
     Forall (fun x => fst x = train_log_dir run \/
                      (fst x = val_log_dir run /\ is_histo (snd x) = false)) t) /\
  (forall run', train_log_dir run <> val_log_dir run') /\
  (forall run', train_log_dir run = train_log_dir run' -> run = run') /\
  (forall run', val_log_dir run = val_log_dir run' -> run = run').
Proof.
  split; [|split; [|split]].
  - revert s.
    change (logs_only (fun x => fst x = train_log_dir run \/
                                (fst x = val_log_dir run /\ is_histo (snd x) = false))
              (main args data_path batch_size n learning_rate mom freq run resume data_set)).
    unfold main, main_init, StepLR_new, main_resume, isfile, torch_load,
      model_load_state_dict, optimizer_load_state_dict, main_loop, main_epoch,
      save_checkpoint, torch_save, copyfile.
    repeat (cbv zeta; lazymatch goal with
      | |- logs_only _ (train _ _ _) =>
          eapply logs_weaken; [|apply logs_train]; cbn; intros ? ?; auto
      | |- logs_only _ (validation _ _ _) =>
          eapply logs_weaken; [|apply logs_validation]; cbn; intros ? ?; auto
      | |- logs_only _ (mret _) => apply logs_ret
      | |- logs_only _ (raise _) => apply logs_raise
      | |- logs_only _ (gets _) => apply logs_gets
      | |- logs_only _ (print _) => apply logs_modify; intros ?; reflexivity
      | |- logs_only _ (call _) => apply logs_modify; intros ?; reflexivity
      | |- logs_only _ (modify _) => apply logs_modify; intros ?; reflexivity
      | |- logs_only _ (for_fold _ _ _) => apply logs_for_fold; intros ? ?
      | |- logs_only _ (_ ≫= _) => apply logs_bind; [|intros ?]
      | |- logs_only _ (match ?x with _ => _ end) => destruct x
      end).
  - intros run'. apply log_dirs_differ.
  - intros run'. apply log_dir_inj.
  - intros run'. apply log_dir_inj.
Qed.

(** ** The steps at which a pass logs *)



















(** *** The batches whose index is a multiple of the cadence *)











(** ** What a run keeps fixed *)



End Properties.

(** * Concrete runs: witnesses and counterexamples *)

Section Witnesses.
Import Runs.

Lemma four_losses : map valid_loss four_history = [5 # 10; 3 # 10; 4 # 10; 2 # 10]%Q.
Proof. vm_compute. reflexivity. Qed.

(** The run with validation losses 0.5, 0.3, 0.4, 0.2 ends with the record
    of its fourth epoch at the "best" location. *)
Lemma best_of_four_run :
  exists r, four_history !! 3%nat = Some r /\
    final_state four_history (fresh four) = er_after r /\
    (valid_loss r == 2 # 10)%Q /\
    fs (er_after r) !! best_path = Some (FCheckpoint (record_of r)) /\
    (ck_best_loss (record_of r) == 2 # 10)%Q.
Proof.
  apply (proj2 (checkpoint_every_epoch_best_on_improvement
                  (tl four) (vl four) (tlog four) (vlog four) 4 (range 0 4) (fresh four))).
  rewrite four_losses.
  repeat (constructor; [reflexivity|]). constructor.
Defined.

(** C1, the claim as worded fails: with validation losses 1000 and 999.5 the
    second epoch is strictly below every earlier loss and copies nothing. *)
Lemma best_copy_misses_improvement_above_999 :
  ~ copies_on_improvement_over_prior_epochs high_history.
Proof.
  intros H.
  assert (E : exists r, high_history !! 1%nat = Some r /\ copied_to_best r = false /\
                        Forall (fun r' => (valid_loss r < valid_loss r')%Q) (take 1 high_history)).
  { eexists. split; [vm_compute; reflexivity|]. split; [vm_compute; reflexivity|].
    vm_compute. repeat constructor. }
  destruct E as (r & Hi & Hc & HF). apply (H _ _ Hi) in HF. congruence.
Qed.



(** The first epoch of a run trains at the initial rate. *)
Lemma first_epoch_rate :
  exists r,
    @script_history four (Toy.cli 4 "") (Toy.start four ∅) !! 0%nat = Some r /\
    (lr (optimizer (er_after r)) == 1 # 100)%Q.
Proof.
  assert (E : exists r, @script_history four (Toy.cli 4 "") (Toy.start four ∅) !! 0%nat = Some r)
    by (eexists; vm_compute; reflexivity).
  destruct E as [r E]. exists r. split; [exact E|].
  destruct (@lr_schedule_step_decay four) as (_ & _ & _ & H).
  destruct (H (Toy.cli 4 "") (Toy.start four ∅) 0%nat r eq_refl E) as (_ & _ & _ & _ & H0 & _).
  apply H0. reflexivity.
Defined.

(** The second epoch of a run starts, and trains, in evaluation mode. *)
Lemma second_epoch_in_eval_mode :
  exists r, four_history !! 1%nat = Some r /\ training (model (er_before r)) = false.
Proof.
  assert (E : exists r, four_history !! 1%nat = Some r) by (eexists; vm_compute; reflexivity).
  destruct E as [r E]. exists r. split; [exact E|].
  exact (proj1 (training_mode_not_restored (tl four) (vl four) (tlog four) (vlog four)
                  4 (range 0 4) 999 (fresh four) 0 r E)).
Defined.



(** A run whose validation losses are 1000 and 999.5 leaves no "best" file. *)
Lemma no_best_file_above_999 :
  fs (snd (@script high (Toy.cli 2 "") (Toy.start high ∅))) !! best_path = None.
Proof.
  destruct (@best_loss_seeded_with_999 high (Toy.cli 2 "") (Toy.start high ∅) eq_refl)
    as (_ & _ & H).
  destruct H as [_ H].
  - vm_compute. repeat constructor; discriminate.
  - rewrite H. vm_compute. reflexivity.
Defined.




(** ** Instances of the further properties *)

(** X3 on the third epoch of the run with losses 0.5, 0.3, 0.4, 0.2. *)
Lemma running_minimum_after_three_epochs :
  exists r, four_history !! 2%nat = Some r /\
    (er_best r <= 999)%Q /\ (er_best r <= er_best_before r)%Q.
Proof.
  assert (E : exists r, four_history !! 2%nat = Some r) by (eexists; vm_compute; reflexivity).
  destruct E as [r Hr]. exists r. split; [exact Hr|].
  destruct (best_loss_is_running_minimum (tl four) (vl four) (tlog four) (vlog four) 4
              (range 0 4) 999 (fresh four) 2 r Hr) as (_ & H1 & _ & _ & H2).
  split; assumption.
Defined.


(** X5 with [--epochs 0]. *)
Lemma no_epoch_with_epochs_0 :
  main_history None "data" 64 0 (1 # 100) (9 # 10) 1 0 "" "mass_roads" (Toy.start four ∅) = [].
Proof.
  refine (proj1 (proj2 (main_without_epochs None "data" 64 0 (1 # 100) (9 # 10) 1 0 ""
                   "mass_roads" (Toy.start four ∅) _ _ _
                   (main_setup_fresh None (1 # 100) (9 # 10) (Toy.start four ∅)) _))).
  reflexivity.
Defined.

(** X6 on the checkpoint of epoch 7. *)
Lemma momentum_of_the_checkpoint_wins :
  main None "data" 64 8 (1 # 100) (9 # 10) 1 0 "run1.pth.tar" "mass_roads"
       (Toy.start four (saved_files four)) =
  main None "data" 64 8 (1 # 100) (1 # 2) 1 0 "run1.pth.tar" "mass_roads"
       (Toy.start four (saved_files four)).
Proof.
  apply (momentum_ignored_on_resume None "data" 64 8 (1 # 100) (9 # 10) (1 # 2) 1 0
           "run1.pth.tar" "mass_roads" (saved four) (Toy.start four (saved_files four))).
  - discriminate.
  - vm_compute. reflexivity.
Defined.

(** X7 on an empty file system. *)
Lemma name_error_without_the_script :
  fst (main None "data" 64 8 (1 # 100) (9 # 10) 1 0 "run1.pth.tar" "mass_roads"
            (Toy.start four ∅)) = Raise NameError.
Proof.
  rewrite (proj1 (main_unbound_args_raises "data" 64 8 (1 # 100) (9 # 10) 1 0
                    "run1.pth.tar" "mass_roads" (Toy.start four ∅)
                    ltac:(discriminate) ltac:(vm_compute; reflexivity))).
  reflexivity.
Defined.



(** X11 on the default file name. *)
Lemma save_as_best :
  exists s',
    save_checkpoint (saved four) true checkpoint_path (Toy.start four ∅) = (Ok tt, s') /\
    fs s' !! best_path = Some (FCheckpoint (saved four)).
Proof.
  destruct (save_checkpoint_writes (saved four) true checkpoint_path (Toy.start four ∅)
              paths_differ) as (s' & E & _ & H & _).
  exists s'. split; assumption.
Defined.



End Witnesses.
